(** * The reconciliation engine of the image registry operator

    A shallow embedding of [pkg/operator/controller.go]: the serialized sync
    pass ([Controller.sync], [Controller.createOrUpdateResources]), the queue
    consumer ([Controller.eventProcessor]) and the event funnel
    ([Controller.handler]).

    The controller talks to collaborators that live outside that file: the
    listers (local cache), the typed client of the remote store, the resource
    generator, and helpers of package [operator] kept in other files.  They are
    gathered in the record [Env]; every call the controller makes to one of
    them is recorded, in program order, in the trace of the pass. *)

From Stdlib Require Import List String ZArith Bool Lia.
Import ListNotations.
Open Scope string_scope.
Open Scope list_scope.

Set Implicit Arguments.

(* ===================================================================== *)
(** ** Data model *)
(* ===================================================================== *)

(** [metaapi.ObjectMeta], restricted to the fields the controller reads or
    writes.  [DeletionTimestamp] is a pointer in Go: [None] is [nil]. *)
Record ObjectMeta := mkObjectMeta {
  Name : string;
  Namespace : string;
  ResourceVersion : string;
  Generation : Z;
  DeletionTimestamp : option Z;
  Finalizers : list string
}.

(** [operatorapi.ManagementState] is a string type. *)
Definition ManagementStateT := string.

Module operatorapi.
Definition Managed : ManagementStateT := "Managed".
Definition Unmanaged : ManagementStateT := "Unmanaged".
Definition Removed : ManagementStateT := "Removed".
End operatorapi.

(** [imageregistryv1.ImageRegistrySpec]: the management state and a sample of
    the remaining user-facing fields. *)
Record ImageRegistrySpec := mkSpec {
  ManagementState : ManagementStateT;
  Replicas : Z;
  Storage : option string
}.

(** [operatorapi.OperatorCondition]. *)
Record OperatorCondition := mkCondition {
  CondType : string;
  CondStatus : string;
  CondReason : string;
  CondMessage : string
}.

(** [imageregistryv1.ImageRegistryStatus]. *)
Record ImageRegistryStatus := mkStatus {
  ObservedGeneration : Z;
  ReadyReplicas : Z;
  Conditions : list OperatorCondition
}.

(** [imageregistryv1.Config], the desired-state object.  The embedded
    [ObjectMeta] is the field [Meta]. *)
Record Config := mkConfig {
  Meta : ObjectMeta;
  Spec : ImageRegistrySpec;
  Status : ImageRegistryStatus
}.

(** [appsapi.Deployment], as far as status computation may look at it. *)
Record Deployment := mkDeployment {
  DeployMeta : ObjectMeta;
  AvailableReplicas : Z
}.

(** In-place field writes of the Go code, as functional updates. *)
Definition set_ResourceVersion (rv : string) (cr : Config) : Config :=
  let m := Meta cr in
  mkConfig (mkObjectMeta (Name m) (Namespace m) rv (Generation m)
                         (DeletionTimestamp m) (Finalizers m))
           (Spec cr) (Status cr).

Definition set_Finalizers (fs : list string) (cr : Config) : Config :=
  let m := Meta cr in
  mkConfig (mkObjectMeta (Name m) (Namespace m) (ResourceVersion m)
                         (Generation m) (DeletionTimestamp m) fs)
           (Spec cr) (Status cr).

Definition set_ObservedGeneration (g : Z) (cr : Config) : Config :=
  let s := Status cr in
  mkConfig (Meta cr) (Spec cr) (mkStatus g (ReadyReplicas s) (Conditions s)).

(** [reflect.DeepEqual] on specs and on statuses is structural equality. *)
Definition option_string_dec (a b : option string) : {a = b} + {a <> b}.
Proof. decide equality; apply string_dec. Defined.

Definition ImageRegistrySpec_dec (a b : ImageRegistrySpec) : {a = b} + {a <> b}.
Proof.
  decide equality;
    [apply option_string_dec | apply Z.eq_dec | apply string_dec].
Defined.

Definition OperatorCondition_dec (a b : OperatorCondition) : {a = b} + {a <> b}.
Proof. decide equality; apply string_dec. Defined.

Definition ImageRegistryStatus_dec (a b : ImageRegistryStatus) : {a = b} + {a <> b}.
Proof.
  decide equality;
    [apply (list_eq_dec OperatorCondition_dec) | apply Z.eq_dec | apply Z.eq_dec].
Defined.

Definition DeepEqual_Spec (a b : ImageRegistrySpec) : bool :=
  if ImageRegistrySpec_dec a b then true else false.

Definition DeepEqual_Status (a b : ImageRegistryStatus) : bool :=
  if ImageRegistryStatus_dec a b then true else false.

(* ===================================================================== *)
(** ** Errors *)
(* ===================================================================== *)

(** The reasons of an API status error that the controller tells apart with
    [errors.IsNotFound] and [errors.IsConflict]. *)
Inductive StatusReason := ReasonNotFound | ReasonConflict | ReasonOther (r : string).

(** Values of Go's [error] interface that reach the controller.
    [permanentError] is the struct of lines 50-53; [Errorf] is the value built
    by [fmt.Errorf format args]. *)
Inductive error :=
| ErrStorageNotConfigured
| StatusError (reason : StatusReason) (msg : string)
| ErrorString (msg : string)
| Errorf (format : string) (args : list Arg)
| permanentError (Err : error) (Reason : string)
with Arg :=
| ArgString (s : string)
| ArgError (e : error).

Definition newPermanentError (reason : string) (err : error) : error :=
  permanentError err reason.

Module errors.
Definition IsNotFound (e : error) : bool :=
  match e with StatusError ReasonNotFound _ => true | _ => false end.
Definition IsConflict (e : error) : bool :=
  match e with StatusError ReasonConflict _ => true | _ => false end.
End errors.

(** The type assertion [applyError.(permanentError)] of line 197; [None] is
    the nil error, on which the assertion fails. *)
Definition isPermanentError (e : option error) : bool :=
  match e with Some (permanentError _ _) => true | _ => false end.

(** Go's [(value, err)] result pair of a lister or client call. *)
Inductive result (A : Type) :=
| Ok (a : A)
| Failed (e : error).
Arguments Failed {A} e.

(* ===================================================================== *)
(** ** Traces *)
(* ===================================================================== *)

Inductive Severity := SevInfo | SevWarning | SevError | SevV (level : nat).

(** An item of the work queue ([interface{}]): a string or something else. *)
Inductive Item := ItemString (s : string) | ItemOther (tag : nat).

(** What the controller does to the outside world, call by call. *)
Inductive Event :=
| EvGetConfig (name : string)
| EvBootstrap
| EvFinalizeResources (cr : Config)
| EvRemoveResources (cr : Config)
| EvVerifyResource (cr : Config)
| EvApply (cr : Config)
| EvGetDeployment (name : string)
| EvSyncStatus (cr : Config) (deploy : option Deployment) (applyError : option error)
| EvUpdate (cr : Config)
| EvUpdateStatus (cr : Config)
| EvLog (sev : Severity) (format : string) (err : option error)
| EvQueueAdd (key : Item)
| EvQueueAddRateLimited (key : Item)
| EvQueueForget (key : Item)
| EvQueueDone (key : Item).

Definition is_update (e : Event) : bool :=
  match e with EvUpdate _ => true | _ => false end.

Definition is_status_update (e : Event) : bool :=
  match e with EvUpdateStatus _ => true | _ => false end.

(** Calls that write the desired-state object to the remote store. *)
Definition is_write (e : Event) : bool := is_update e || is_status_update e.

Definition is_generator_apply (e : Event) : bool :=
  match e with EvApply _ => true | _ => false end.

(* ===================================================================== *)
(** ** A pass: a trace, and either a value to go on with or the value
       returned by the enclosing Go function *)
(* ===================================================================== *)

Inductive Step (R A : Type) :=
| Next (a : A)
| Return (r : R).
Arguments Next {R A} a.
Arguments Return {R A} r.

Definition Pass (R A : Type) : Type := (list Event * Step R A)%type.

Definition pure {R A} (a : A) : Pass R A := ([], Next a).
Definition return_ {R A} (r : R) : Pass R A := ([], Return r).
Definition emit {R} (e : Event) : Pass R unit := ([e], Next tt).

Definition bind {R A B} (m : Pass R A) (f : A -> Pass R B) : Pass R B :=
  match m with
  | (t, Next a) => let (t', s) := f a in (t ++ t', s)
  | (t, Return r) => (t, Return r)
  end.

Declare Scope pass_scope.
Delimit Scope pass_scope with pass.
Notation "x <- m ;; k" := (bind m (fun x => k))
  (at level 100, m at next level, right associativity) : pass_scope.
Notation "m ;;; k" := (bind m (fun _ => k))
  (at level 100, right associativity) : pass_scope.

(** A Go function body always ends in a [return]. *)
Definition run {R} (m : Pass R Empty_set) : list Event * R :=
  match m with
  | (t, Return r) => (t, r)
  | (t, Next e) => match e with end
  end.

(** Record a call and hand back what the collaborator answered. *)
Definition call {R A} (e : Event) (answer : A) : Pass R A := ([e], Next answer).

(** Run a Go function that is called for its value, and one whose value the
    caller returns at once. *)
Definition lift {R A} (m : list Event * A) : Pass R A := (fst m, Next (snd m)).
Definition finish {R A} (m : list Event * R) : Pass R A := (fst m, Return (snd m)).

Definition when {R} (b : bool) (m : Pass R unit) : Pass R unit :=
  if b then m else pure tt.

(* ===================================================================== *)
(** ** Collaborators *)
(* ===================================================================== *)

(** The constants of package [defaults] that the controller names. *)
Record Defaults := mkDefaults {
  ImageRegistryResourceName : string;
  ImageRegistryName : string;
  ImageRegistryClusterOperatorResourceName : string;
  ImageRegistryOperatorResourceFinalizer : string
}.

(** What the world outside [controller.go] answers during one pass.  A Go
    function that receives the [*Config] pointer and may write through it
    returns the object it leaves behind; [verifyResource], [strategy.Metadata]
    and [object.DiffString] are consulted for their results only. *)
Record Env := mkEnv {
  (* listers: the local cache *)
  RegistryConfigs_Get : string -> result Config;
  Deployments_Get : string -> result Deployment;
  (* package operator, other files *)
  Bootstrap : option error;
  finalizeResources : Config -> Config * option error;
  RemoveResources : Config -> Config * option error;
  verifyResource : Config -> option error;
  syncStatus : Config -> option Deployment -> option error -> Config;
  (* packages resource, resource/strategy, resource/object *)
  generator_Apply : Config -> Config * option error;
  strategy_Metadata : ObjectMeta -> ObjectMeta -> bool;
  DiffString : Config -> Config -> string * option error;
  (* typed client of the remote store *)
  Configs_Update : Config -> result Config;
  Configs_UpdateStatus : Config -> result Config
}.

Definition workqueueKey : string := "changes".
Definition kubeSystemNamespace : string := "kube-system".

(* ===================================================================== *)
(** ** The sync pass *)
(* ===================================================================== *)

Section Controller.

Variable defaults : Defaults.
Variable env : Env.

(** Modelled from the spec: [appendFinalizer] is a helper of package
    [operator] defined outside [controller.go]; section 4.4 gives its
    contract: append the controller's finalizer token if absent, no-op if
    present. *)
Definition appendFinalizer (cr : Config) : Config :=
  let token := ImageRegistryOperatorResourceFinalizer defaults in
  if existsb (String.eqb token) (Finalizers (Meta cr))
  then cr
  else set_Finalizers (Finalizers (Meta cr) ++ [token]) cr.

(** Lines 96-112.  The result pairs the object as the function leaves it with
    the returned error. *)
Definition createOrUpdateResources (cr : Config)
  : list Event * (Config * option error) :=
  run (
    let cr := appendFinalizer cr in
    err <- call (EvVerifyResource cr) (verifyResource env cr) ;;
    match err with
    | Some err =>
        return_ (cr, Some (newPermanentError "VerificationFailed"
                   (Errorf "unable to complete resource: %s" [ArgError err])))
    | None =>
        a <- call (EvApply cr) (generator_Apply env cr) ;;
        let (cr, err) := a : Config * option error in
        match err with
        | Some ErrStorageNotConfigured =>
            return_ (cr, Some (newPermanentError "StorageNotConfigured"
                                                 ErrStorageNotConfigured))
        | Some err => return_ (cr, Some err)
        | None => return_ (cr, None)
        end
    end)%pass.

(** Lines 130-140: the switch on [cr.Spec.ManagementState]; it yields the
    working copy and [applyError]. *)
Definition managementStateSwitch (cr : Config)
  : list Event * (Config * option error) :=
  let state := ManagementState (Spec cr) in
  if String.eqb state operatorapi.Removed then
    ([EvRemoveResources cr], RemoveResources env cr)
  else if String.eqb state operatorapi.Managed then
    createOrUpdateResources cr
  else if String.eqb state operatorapi.Unmanaged then
    ([], (cr, None))
  else
    ([EvLog SevWarning "unknown custom resource state: %s" None], (cr, None)).

(** [difference, err := object.DiffString(prevCR, cr)] followed by the
    [klog.Errorf] of a non-nil [err] (lines 156-159 and 180-183); the pass
    goes on either way. *)
Definition logDiffError {R} (d : string * option error) : Pass R unit :=
  match snd d with
  | Some err =>
      emit (EvLog SevError "unable to calculate difference in %s: %s" (Some err))
  | None => pure tt
  end.

(** Lines 153-201 of [sync]: the two diff groups, the two conditional
    writes, and the pass result.  [prevCR] is the pre-pass copy, [cr] the
    working copy after status computation. *)
Definition persistChanges (prevCR cr : Config) (applyError : option error)
  : list Event * option error :=
  run (
    let metadataChanged := strategy_Metadata env (Meta prevCR) (Meta cr) in
    let specChanged := negb (DeepEqual_Spec (Spec prevCR) (Spec cr)) in
    cr <- (if metadataChanged || specChanged then
             logDiffError (DiffString env prevCR cr) ;;;
             emit (EvLog SevInfo "object changed: %s (metadata=%t, spec=%t): %s"
                         None) ;;;
             u <- call (EvUpdate cr) (Configs_Update env cr) ;;
             match u with
             | Failed err =>
                 when (negb (errors.IsConflict err))
                      (emit (EvLog SevError "unable to update %s: %s" (Some err))) ;;;
                 return_ (Some err)
             | Ok updatedCR =>
                 pure (set_ResourceVersion (ResourceVersion (Meta updatedCR)) cr)
             end
           else pure cr) ;;
    let cr := set_ObservedGeneration (Generation (Meta cr)) cr in
    let statusChanged := negb (DeepEqual_Status (Status prevCR) (Status cr)) in
    (if statusChanged then
       logDiffError (DiffString env prevCR cr) ;;;
       emit (EvLog SevInfo "object changed: %s (status=%t): %s" None) ;;;
       u <- call (EvUpdateStatus cr) (Configs_UpdateStatus env cr) ;;
       match u with
       | Failed err =>
           when (negb (errors.IsConflict err))
                (emit (EvLog SevError "unable to update status %s: %s" (Some err))) ;;;
           return_ (Some err)
       | Ok _ => pure tt
       end
     else pure tt) ;;;
    if negb (isPermanentError applyError)
    then return_ applyError
    else return_ None)%pass.

(** Lines 114-202; lines 153-201 are [persistChanges]. *)
Definition sync : list Event * option error :=
  run (
    r <- call (EvGetConfig (ImageRegistryResourceName defaults))
              (RegistryConfigs_Get env (ImageRegistryResourceName defaults)) ;;
    cr <- match r with
          | Failed err =>
              if errors.IsNotFound err
              then (e <- call EvBootstrap (Bootstrap env) ;; return_ e)
              else return_ (Some (Errorf
                     "failed to get %q registry operator resource: %s"
                     [ArgString (ImageRegistryResourceName defaults); ArgError err]))
          | Ok cr => pure cr
          end ;;
    let prevCR := cr in
    match DeletionTimestamp (Meta cr) with
    | Some _ =>
        f <- call (EvFinalizeResources cr) (finalizeResources env cr) ;;
        return_ (snd f)
    | None =>
        a <- lift (managementStateSwitch cr) ;;
        let (cr, applyError) := a : Config * option error in
        d <- call (EvGetDeployment (ImageRegistryName defaults))
                  (Deployments_Get env (ImageRegistryName defaults)) ;;
        deploy <- match d with
                  | Failed err =>
                      if errors.IsNotFound err then pure None
                      else return_ (Some (Errorf "failed to get %q deployment: %s"
                             [ArgString (ImageRegistryName defaults); ArgError err]))
                  | Ok deploy => pure (Some deploy)
                  end ;;
        cr <- call (EvSyncStatus cr deploy applyError)
                   (syncStatus env cr deploy applyError) ;;
        finish (persistChanges prevCR cr applyError)
    end)%pass.

End Controller.

(* ===================================================================== *)
(** ** The queue consumer *)
(* ===================================================================== *)

Section Consumer.

Variable defaults : Defaults.

(** Lines 212-228: the closure run for one dequeued item, with its deferred
    [Done]. *)
Definition processItem (env : Env) (obj : Item) : list Event :=
  (match obj with
   | ItemOther _ =>
       [EvQueueForget obj;
        EvLog SevError "expected string in workqueue but got %#v" None]
   | ItemString _ =>
       let (t, err) := sync defaults env in
       t ++ match err with
            | Some err =>
                [EvQueueAddRateLimited (ItemString workqueueKey);
                 EvLog SevError "unable to sync: %s, requeuing" (Some err)]
            | None =>
                [EvQueueForget obj;
                 EvLog SevInfo "event from workqueue successfully processed" None]
            end
   end) ++ [EvQueueDone obj].

(** Lines 204-230.  Each element of [gets] is one answer of
    [c.workqueue.Get()], together with the world the pass it starts runs in;
    the loop ends at the first [shutdown]. *)
Fixpoint eventProcessor (gets : list (Env * Item * bool)) : list Event :=
  match gets with
  | [] => []
  | (env, obj, shutdown) :: rest =>
      if shutdown then []
      else EvLog (SevV 1) "get event from workqueue" None
             :: processItem env obj ++ eventProcessor rest
  end.

End Consumer.

(** *** The rate-limited, deduplicating work queue

    A model of client-go's [workqueue.RateLimitingInterface], enough to read
    the queue calls of a trace: [ready] holds the keys waiting for [Get]
    (each at most once), [delayed] the keys the rate limiter releases after
    their backoff, [numRequeues] the failures the rate limiter remembers. *)
Definition Item_dec (a b : Item) : {a = b} + {a <> b}.
Proof. decide equality; [apply string_dec | apply Nat.eq_dec]. Defined.

Record Workqueue := mkWorkqueue {
  ready : list Item;
  delayed : list Item;
  numRequeues : Item -> nat
}.

Definition queue_step (q : Workqueue) (e : Event) : Workqueue :=
  match e with
  | EvQueueAdd k =>
      mkWorkqueue (if in_dec Item_dec k (ready q) then ready q else ready q ++ [k])
                  (delayed q) (numRequeues q)
  | EvQueueAddRateLimited k =>
      mkWorkqueue (ready q)
                  (if in_dec Item_dec k (delayed q) then delayed q else delayed q ++ [k])
                  (fun i => if Item_dec i k then S (numRequeues q i) else numRequeues q i)
  | EvQueueForget k =>
      mkWorkqueue (ready q) (delayed q)
                  (fun i => if Item_dec i k then 0%nat else numRequeues q i)
  | _ => q
  end.

Definition queue_after (q : Workqueue) (t : list Event) : Workqueue :=
  fold_left queue_step t q.

Definition is_enqueue (e : Event) : bool :=
  match e with EvQueueAdd _ | EvQueueAddRateLimited _ => true | _ => false end.

(* ===================================================================== *)
(** ** The event funnel *)
(* ===================================================================== *)

(** The dynamic types a notification ([interface{}]) can carry. *)
Inductive Object :=
| ClusterOperator (m : ObjectMeta)                 (* a configapiv1.ClusterOperator *)
| ApiObject (kind : string) (m : ObjectMeta)       (* any other API object *)
| DeletedFinalStateUnknown (Key : string) (Obj : Object)   (* the tombstone *)
| Opaque (descr : string).                         (* anything else *)

(** [o.(metaapi.Object)]: API objects carry object metadata, the tombstone
    struct and foreign values do not. *)
Definition asMetaObject (o : Object) : option ObjectMeta :=
  match o with
  | ClusterOperator m => Some m
  | ApiObject _ m => Some m
  | _ => None
  end.

(** The assertion of [o] to a pointer to [configapiv1.ClusterOperator]. *)
Definition asClusterOperator (o : Object) : option ObjectMeta :=
  match o with ClusterOperator m => Some m | _ => None end.

(** [o.(cache.DeletedFinalStateUnknown)]. *)
Definition asTombstone (o : Object) : option (string * Object) :=
  match o with DeletedFinalStateUnknown k inner => Some (k, inner) | _ => None end.

Module kmeta.
Definition errNotObject : error := ErrorString "object does not implement the Object interfaces".
Definition Accessor (o : Object) : result ObjectMeta :=
  match asMetaObject o with
  | Some m => Ok m
  | None => Failed errNotObject
  end.
End kmeta.

(** How a handler invocation ends: it returns, or a type assertion without
    the comma-ok form fails and the goroutine panics. *)
Inductive Exit := Returned | Panicked.

Section Handler.

Variable defaults : Defaults.

(** The single-valued assertion [obj := o.(metaapi.Object)]. *)
Definition mustMetaObject (o : Object) : Pass Exit ObjectMeta :=
  match asMetaObject o with
  | Some m => pure m
  | None => return_ Panicked
  end.

(** The two relevance filters shared by the three handlers (lines 235-243,
    263-271, 290-298), applied to the value [o] they are given. *)
Definition relevanceFilters (o : Object) : Pass Exit unit :=
  (match asClusterOperator o with
   | Some clusterOperator =>
       if negb (String.eqb (Name clusterOperator)
                           (ImageRegistryClusterOperatorResourceName defaults))
       then return_ Returned else pure tt
   | None => pure tt
   end ;;;
   obj <- mustMetaObject o ;;
   if String.eqb (Namespace obj) "kube-system"
      && negb (String.eqb (Name obj) "cluster-config-v1")
   then return_ Returned else pure tt)%pass.

(** Lines 234-246. *)
Definition AddFunc (o : Object) : list Event * Exit :=
  run (
    relevanceFilters o ;;;
    emit (EvLog (SevV 1) "add event to workqueue due to %s (add)" None) ;;;
    emit (EvQueueAdd (ItemString workqueueKey)) ;;;
    return_ Returned)%pass.

(** Lines 247-274. *)
Definition UpdateFunc (o n : Object) : list Event * Exit :=
  run (
    newAccessor <-
      match kmeta.Accessor n with
      | Failed err =>
          emit (EvLog SevError "unable to get accessor for new object: %s" (Some err)) ;;;
          return_ Returned
      | Ok a => pure a
      end ;;
    oldAccessor <-
      match kmeta.Accessor o with
      | Failed err =>
          emit (EvLog SevError "unable to get accessor for old object: %s" (Some err)) ;;;
          return_ Returned
      | Ok a => pure a
      end ;;
    (if String.eqb (ResourceVersion newAccessor) (ResourceVersion oldAccessor)
     then return_ Returned else pure tt) ;;;
    relevanceFilters o ;;;
    emit (EvLog (SevV 1) "add event to workqueue due to %s (update)" None) ;;;
    emit (EvQueueAdd (ItemString workqueueKey)) ;;;
    return_ Returned)%pass.

(** Lines 275-301.  The filters of lines 290-298 are applied to [o], the
    notification as received, not to the unwrapped [object]. *)
Definition DeleteFunc (o : Object) : list Event * Exit :=
  run (
    object <-
      match asMetaObject o with
      | Some object => pure object
      | None =>
          match asTombstone o with
          | None =>
              emit (EvLog SevError "error decoding object, invalid type" None) ;;;
              return_ Returned
          | Some (_, inner) =>
              match asMetaObject inner with
              | None =>
                  emit (EvLog SevError
                              "error decoding object tombstone, invalid type" None) ;;;
                  return_ Returned
              | Some object =>
                  emit (EvLog (SevV 4)
                              "recovered deleted object %q from tombstone" None) ;;;
                  pure object
              end
          end
      end ;;
    relevanceFilters o ;;;
    emit (EvLog (SevV 1) "add event to workqueue due to %s (delete)" None) ;;;
    emit (EvQueueAdd (ItemString workqueueKey)) ;;;
    return_ Returned)%pass.

End Handler.

(* ===================================================================== *)
(** ** Reading a trace against the collaborators *)
(* ===================================================================== *)

Definition is_sync_status (ev : Event) : bool :=
  match ev with EvSyncStatus _ _ _ => true | _ => false end.

Definition is_queue_call (ev : Event) : bool :=
  match ev with
  | EvQueueAdd _ | EvQueueAddRateLimited _ | EvQueueForget _ | EvQueueDone _ => true
  | _ => false
  end.

(** The calls the management-state switch can make. *)
Definition is_dispatch (ev : Event) : bool :=
  match ev with
  | EvRemoveResources _ | EvVerifyResource _ | EvApply _ => true
  | EvLog SevWarning _ _ => true
  | _ => false
  end.

(** A read or write of the pass that ended in a failure the pass does not
    absorb: a deployment read failing with something other than not-found,
    an update or a status update the store refused. *)
Definition step_failed (env : Env) (ev : Event) : bool :=
  match ev with
  | EvGetDeployment n =>
      match Deployments_Get env n with
      | Failed e => negb (errors.IsNotFound e)
      | Ok _ => false
      end
  | EvUpdate c =>
      match Configs_Update env c with Failed _ => true | Ok _ => false end
  | EvUpdateStatus c =>
      match Configs_UpdateStatus env c with Failed _ => true | Ok _ => false end
  | _ => false
  end.

(** What the deployment lister's answer becomes for status computation
    (lines 142-149): the object, or [nil] on not-found. *)
Definition deployment_seen (r : result Deployment) (deploy : option Deployment) : Prop :=
  match r with
  | Ok d => deploy = Some d
  | Failed e => errors.IsNotFound e = true /\ deploy = None
  end.

(** The remote store is an external collaborator; the controller sees it
    through the two calls of lines 162 and 186.  [store_after] replays the
    writes of a trace on the object the pass fetched: an accepted update
    leaves the metadata and spec the store answered with (the answer is the
    object as stored), an accepted status update leaves the status it was
    sent; a refused call leaves the store as it was. *)
Definition store_step (env : Env) (persisted : Config) (ev : Event) : Config :=
  match ev with
  | EvUpdate sent =>
      match Configs_Update env sent with
      | Ok updated => mkConfig (Meta updated) (Spec updated) (Status persisted)
      | Failed _ => persisted
      end
  | EvUpdateStatus sent =>
      match Configs_UpdateStatus env sent with
      | Ok _ => mkConfig (Meta persisted) (Spec persisted) (Status sent)
      | Failed _ => persisted
      end
  | _ => persisted
  end.

Definition store_after (env : Env) (fetched : Config) (t : list Event) : Config :=
  fold_left (store_step env) t fetched.

(** The writes a pass may issue: at most one update, then at most one status
    update. *)
Definition update_then_status (ws : list Event) : Prop :=
  ws = [] \/ (exists c, ws = [EvUpdate c]) \/ (exists c, ws = [EvUpdateStatus c])
  \/ (exists c c', ws = [EvUpdate c; EvUpdateStatus c']).

(* ===================================================================== *)
(** ** Sample worlds *)
(* ===================================================================== *)

Module Sample.

Definition defaults : Defaults :=
  mkDefaults "cluster" "image-registry" "image-registry"
             "imageregistry.operator.openshift.io/finalizer".

Definition token : string := ImageRegistryOperatorResourceFinalizer defaults.

(** The desired-state object [cluster] at generation 1, already observed. *)
Definition config (state : ManagementStateT) (deletion : option Z)
           (finalizers : list string) : Config :=
  mkConfig (mkObjectMeta "cluster" "" "41" 1 deletion finalizers)
           (mkSpec state 1 None)
           (mkStatus 1 0 []).

Definition deployment : Deployment :=
  mkDeployment (mkObjectMeta "image-registry" "openshift-image-registry" "7" 1 None [])
               1.

(** Status computation that writes status fields only. *)
Definition syncStatus (cr : Config) (deploy : option Deployment)
           (applyError : option error) : Config :=
  mkConfig (Meta cr) (Spec cr)
    (mkStatus (ObservedGeneration (Status cr))
              (match deploy with Some d => AvailableReplicas d | None => 0%Z end)
              (match applyError with
               | Some (permanentError _ reason) =>
                   [mkCondition "Degraded" "True" reason ""]
               | _ => []
               end)).

(** A metadata strategy that reports a change of the finalizer list. *)
Definition metadataStrategy (old new : ObjectMeta) : bool :=
  if list_eq_dec string_dec (Finalizers old) (Finalizers new) then false else true.

(** A store that accepts every write, hands out version token ["42"] on
    update and assigns generation [gen]. *)
Definition acceptUpdate (gen : Z) (cr : Config) : result Config :=
  let m := Meta cr in
  Ok (mkConfig (mkObjectMeta (Name m) (Namespace m) "42" gen
                             (DeletionTimestamp m) (Finalizers m))
               (Spec cr) (Status cr)).

Definition acceptStatus (cr : Config) : result Config :=
  Ok (set_ResourceVersion "43" cr).

Definition conflict : error :=
  StatusError ReasonConflict "the object has been modified".

Definition notFound : error := StatusError ReasonNotFound "not found".

Definition world (fetched : result Config) (deploy : result Deployment)
           (verify : option error) (apply : Config -> Config * option error)
           (update : Config -> result Config) : Env :=
  mkEnv (fun _ => fetched) (fun _ => deploy)
        None
        (fun cr => (set_Finalizers [] cr, None))
        (fun cr => (cr, None))
        (fun _ => verify)
        syncStatus
        apply
        metadataStrategy
        (fun _ _ => ("", None))
        update
        acceptStatus.

Definition applyOk (cr : Config) : Config * option error := (cr, None).

Definition applyFails (e : error) (cr : Config) : Config * option error :=
  (cr, Some e).

(** The generator fills in the storage the spec left open. *)
Definition applyDefaultsStorage (cr : Config) : Config * option error :=
  (mkConfig (Meta cr)
            (mkSpec (ManagementState (Spec cr)) (Replicas (Spec cr)) (Some "emptyDir"))
            (Status cr),
   None).

(** Unmanaged object without the finalizer, registry deployment absent. *)
Definition unmanagedWorld : Env :=
  world (Ok (config operatorapi.Unmanaged None [])) (Failed notFound)
        None applyOk (acceptUpdate 1).

(** Managed object without the finalizer, everything succeeds. *)
Definition managedWorld : Env :=
  world (Ok (config operatorapi.Managed None [])) (Ok deployment)
        None applyOk (acceptUpdate 1).

(** Managed object that already carries the finalizer and whose status is
    already what status computation yields. *)
Definition settledConfig : Config :=
  mkConfig (mkObjectMeta "cluster" "" "41" 1 None [token])
           (mkSpec operatorapi.Managed 1 None)
           (mkStatus 1 1 []).

Definition settledWorld : Env :=
  world (Ok settledConfig) (Ok deployment) None applyOk (acceptUpdate 1).

(** Managed object whose storage the generator defaults; the store assigns
    generation 2 to the changed spec. *)
Definition defaultingWorld : Env :=
  world (Ok (config operatorapi.Managed None [token])) (Ok deployment)
        None applyDefaultsStorage (acceptUpdate 2).

(** The update of the pass meets a version conflict. *)
Definition conflictWorld : Env :=
  world (Ok (config operatorapi.Managed None [])) (Ok deployment)
        None applyOk (fun _ => Failed conflict).

(** The generator reports that storage is not configured. *)
Definition storageWorld : Env :=
  world (Ok (config operatorapi.Managed None [token])) (Ok deployment)
        None (applyFails ErrStorageNotConfigured) (acceptUpdate 1).

(** Same, and the deployment lister fails. *)
Definition brokenCacheWorld : Env :=
  world (Ok (config operatorapi.Managed None [token]))
        (Failed (ErrorString "cache not synced"))
        None (applyFails ErrStorageNotConfigured) (acceptUpdate 1).

(** The spec does not pass validation. *)
Definition invalidWorld : Env :=
  world (Ok (config operatorapi.Managed None [token])) (Ok deployment)
        (Some (ErrorString "replicas must be greater than or equal to 0"))
        applyOk (acceptUpdate 1).

(** The generator fails for a reason of its own. *)
Definition flakyWorld : Env :=
  world (Ok (config operatorapi.Managed None [token])) (Ok deployment)
        None (applyFails (ErrorString "connection refused")) (acceptUpdate 1).

(** The object is being deleted and teardown fails. *)
Definition deletingWorld : Env :=
  mkEnv (fun _ => Ok (config operatorapi.Managed (Some 1700000000%Z) [token]))
        (fun _ => Ok deployment)
        None
        (fun cr => (cr, Some (permanentError (ErrorString "teardown incomplete") "Teardown")))
        (fun cr => (cr, None))
        (fun _ => None)
        syncStatus applyOk metadataStrategy (fun _ _ => ("", None))
        (acceptUpdate 1) acceptStatus.

(** A queue with nothing pending whose rate limiter remembers two failed
    passes for every key. *)
Definition backedOffQueue : Workqueue := mkWorkqueue [] [] (fun _ => 2%nat).

Definition registryDeployment : Object :=
  ApiObject "Deployment"
    (mkObjectMeta "image-registry" "openshift-image-registry" "7" 1 None []).

(** A ClusterOperator of another operator and a config map of the shared
    namespace that is not on the allow-list. *)
Definition foreignClusterOperator (rv : string) : Object :=
  ClusterOperator (mkObjectMeta "dns" "" rv 1 None []).

Definition foreignConfigMap : Object :=
  ApiObject "ConfigMap" (mkObjectMeta "kube-proxy" "kube-system" "12" 1 None []).

End Sample.

(* ===================================================================== *)
(** ** Construction and start-up *)
(* ===================================================================== *)

(** Lines 70-85: [NewController] builds the controller around a fresh queue
    and seeds the queue with the sentinel key, rate limited; its error result
    is always nil. *)
Definition NewController : list Event * option error :=
  ([EvQueueAddRateLimited (ItemString workqueueKey)], None).

(** What [Run] does, in the program order of its own goroutine. *)
Inductive RunEvent :=
| RunNewForConfig (clientset : string)
| RunAddEventHandler (lister : string)
| RunNewSibling (controller : string)
| RunStartFactory (factory : string)
| RunGo (routine : string)
| RunLog (msg : string)
| RunWaitForCacheSync (lister : string)
| RunAwaitStop
| RunQueueShutDown.

(** What start-up depends on: whether each client set can be built from the
    kubeconfig, and whether each informer cache syncs before the stop
    channel closes. *)
Record RunEnv := mkRunEnv {
  NewForConfig : string -> option error;
  WaitForCacheSync : string -> bool
}.

(** Lines 311-359: the client sets, by the package alias used to build them. *)
Definition clientSets : list string :=
  ["coreset"; "appsset"; "rbacset"; "kubeset"; "routesetv1"; "configsetv1";
   "regopset"; "batchset"; "routeset"; "configset"].

(** Lines 369-465: the informers, by the lister their constructor fills. *)
Definition watchedListers : list string :=
  ["Deployments"; "DaemonSets"; "Services"; "Secrets"; "ConfigMaps";
   "ServiceAccounts"; "Routes"; "ClusterRoles"; "ClusterRoleBindings";
   "OpenShiftConfig"; "ImageConfigs"; "ClusterOperators"; "ProxyConfigs";
   "RegistryConfigs"; "ImagePrunerConfigs"; "InstallerConfigMaps";
   "Infrastructures"; "CronJobs"; "Jobs"].

(** Lines 471-497. *)
Definition siblingControllers : list string :=
  ["ImageConfigController"; "ClusterOperatorStatusController";
   "ImageRegistryCertificatesController"; "NodeCADaemonController"].

(** Lines 499-504. *)
Definition informerFactories : list string :=
  ["configInformerFactory"; "kubeInformerFactory";
   "openshiftConfigKubeInformerFactory"; "kubeSystemKubeInformerFactory";
   "regopInformerFactory"; "routeInformerFactory"].

(** Lines 507-510. *)
Definition siblingRoutines : list string :=
  ["clusterOperatorStatusController"; "nodeCADaemonController";
   "imageRegistryCertificatesController"; "imageConfigStatusController"].

(** Lines 311-359: each [NewForConfig] in turn; the first error is returned
    at once. *)
Fixpoint newClients (w : RunEnv) (sets : list string) : list RunEvent * option error :=
  match sets with
  | [] => ([], None)
  | s :: rest =>
      match NewForConfig w s with
      | Some err => ([RunNewForConfig s], Some err)
      | None => let (t, r) := newClients w rest in (RunNewForConfig s :: t, r)
      end
  end.

(** Lines 513-517: wait for each informer in turn; stop at the first that
    did not sync. *)
Fixpoint waitForCaches (w : RunEnv) (listers : list string) : list RunEvent * bool :=
  match listers with
  | [] => ([], true)
  | l :: rest =>
      if WaitForCacheSync w l
      then let (t, ok) := waitForCaches w rest in (RunWaitForCacheSync l :: t, ok)
      else ([RunWaitForCacheSync l], false)
  end.

(** Lines 306-526.  The deferred [ShutDown] of line 307 runs at every
    return. *)
Definition Run (w : RunEnv) : list RunEvent * option error :=
  let body :=
    match newClients w clientSets with
    | (t1, Some err) => (t1, Some err)
    | (t1, None) =>
        let t2 := t1
                    ++ map RunAddEventHandler watchedListers
                    ++ map RunNewSibling siblingControllers
                    ++ map RunStartFactory informerFactories
                    ++ map RunGo siblingRoutines
                    ++ [RunLog "waiting for informer caches to sync"] in
        match waitForCaches w watchedListers with
        | (t3, false) =>
            (t2 ++ t3, Some (Errorf "failed to wait for caches to sync" []))
        | (t3, true) =>
            (t2 ++ t3 ++ [RunGo "eventProcessor";
                          RunLog "started events processor";
                          RunAwaitStop;
                          RunLog "shutting down events processor"],
             None)
        end
    end in
  (fst body ++ [RunQueueShutDown], snd body).

Definition is_handler_registration (ev : RunEvent) : bool :=
  match ev with RunAddEventHandler _ => true | _ => false end.

Definition is_go (ev : RunEvent) : bool :=
  match ev with RunGo _ => true | _ => false end.

Definition is_shutdown (ev : RunEvent) : bool :=
  match ev with RunQueueShutDown => true | _ => false end.

(* ===================================================================== *)
(** ** Further vocabulary for traces *)
(* ===================================================================== *)

Definition is_log (ev : Event) : bool :=
  match ev with EvLog _ _ _ => true | _ => false end.

Definition is_done (ev : Event) : bool :=
  match ev with EvQueueDone _ => true | _ => false end.

(** The generator and teardown calls of the management-state switch. *)
Definition is_resource_call (ev : Event) : bool :=
  match ev with
  | EvRemoveResources _ | EvVerifyResource _ | EvApply _ => true
  | _ => false
  end.

(** The object lives in the shared namespace and is not the allow-listed
    installer config (lines 241, 269, 296). *)
Definition sharedNamespaceNoise (m : ObjectMeta) : bool :=
  String.eqb (Namespace m) "kube-system"
  && negb (String.eqb (Name m) "cluster-config-v1").

(** The decision of the relevance filters on a notification object, read as
    a whole: a ClusterOperator must carry the operator's own name, and no
    object may be noise of the shared namespace. *)
Definition relevant (defaults : Defaults) (o : Object) : bool :=
  match o with
  | ClusterOperator m =>
      String.eqb (Name m) (ImageRegistryClusterOperatorResourceName defaults)
      && negb (sharedNamespaceNoise m)
  | ApiObject _ m => negb (sharedNamespaceNoise m)
  | _ => false
  end.

(** The same world with another [object.DiffString]. *)
Definition with_DiffString (env : Env)
           (diff : Config -> Config -> string * option error) : Env :=
  mkEnv (RegistryConfigs_Get env) (Deployments_Get env) (Bootstrap env)
        (finalizeResources env) (RemoveResources env) (verifyResource env)
        (syncStatus env) (generator_Apply env) (strategy_Metadata env)
        diff (Configs_Update env) (Configs_UpdateStatus env).

(** The working copy as lines 153-175 leave it: untouched when the
    metadata/spec group is unchanged, carrying the returned version token
    when the update is accepted; [None] when the update is refused and the
    pass ends there. *)
Definition afterUpdate (env : Env) (prevCR cr : Config) : option Config :=
  if strategy_Metadata env (Meta prevCR) (Meta cr)
     || negb (DeepEqual_Spec (Spec prevCR) (Spec cr))
  then match Configs_Update env cr with
       | Ok updatedCR =>
           Some (set_ResourceVersion (ResourceVersion (Meta updatedCR)) cr)
       | Failed _ => None
       end
  else Some cr.

Module SampleStart.

(** Every client set can be built and every cache syncs. *)
Definition healthy : RunEnv := mkRunEnv (fun _ => None) (fun _ => true).

(** The route client set cannot be built from the kubeconfig. *)
Definition badKubeconfig : RunEnv :=
  mkRunEnv (fun s => if String.eqb s "routesetv1"
                     then Some (ErrorString "invalid configuration") else None)
           (fun _ => true).

(** The stop channel closes while the secrets cache is still syncing. *)
Definition stoppedEarly : RunEnv :=
  mkRunEnv (fun _ => None) (fun l => negb (String.eqb l "Secrets")).

End SampleStart.

(* ===================================================================== *)
(** ** The model on the sample worlds *)
(* ===================================================================== *)

Example add_of_registry_deployment_enqueues :
  AddFunc Sample.defaults Sample.registryDeployment
  = ([EvLog (SevV 1) "add event to workqueue due to %s (add)" None;
      EvQueueAdd (ItemString "changes")], Returned).
Proof. reflexivity. Qed.

Example add_of_foreign_cluster_operator_discarded :
  AddFunc Sample.defaults (Sample.foreignClusterOperator "5") = ([], Returned).
Proof. reflexivity. Qed.

Example add_in_shared_namespace_discarded :
  AddFunc Sample.defaults Sample.foreignConfigMap = ([], Returned).
Proof. reflexivity. Qed.

Example add_of_installer_config_enqueues :
  snd (AddFunc Sample.defaults
         (ApiObject "ConfigMap"
            (mkObjectMeta "cluster-config-v1" "kube-system" "3" 1 None [])))
  = Returned
  /\ filter is_enqueue
        (fst (AddFunc Sample.defaults
                (ApiObject "ConfigMap"
                   (mkObjectMeta "cluster-config-v1" "kube-system" "3" 1 None []))))
     = [EvQueueAdd (ItemString "changes")].
Proof. split; reflexivity. Qed.

Example update_of_foreign_cluster_operator_discarded :
  UpdateFunc Sample.defaults (Sample.foreignClusterOperator "5")
             (Sample.foreignClusterOperator "6")
  = ([], Returned).
Proof. reflexivity. Qed.

Example update_without_accessor_logged :
  UpdateFunc Sample.defaults Sample.registryDeployment (Opaque "string")
  = ([EvLog SevError "unable to get accessor for new object: %s"
            (Some kmeta.errNotObject)], Returned).
Proof. reflexivity. Qed.

Example delete_of_registry_deployment_enqueues :
  DeleteFunc Sample.defaults Sample.registryDeployment
  = ([EvLog (SevV 1) "add event to workqueue due to %s (delete)" None;
      EvQueueAdd (ItemString "changes")], Returned).
Proof. reflexivity. Qed.

Example delete_of_foreign_value_logged :
  DeleteFunc Sample.defaults (Opaque "string")
  = ([EvLog SevError "error decoding object, invalid type" None], Returned).
Proof. reflexivity. Qed.

Example delete_of_empty_tombstone_logged :
  DeleteFunc Sample.defaults (DeletedFinalStateUnknown "ns/name" (Opaque "nil"))
  = ([EvLog SevError "error decoding object tombstone, invalid type" None],
     Returned).
Proof. reflexivity. Qed.

Example sync_bootstraps_when_absent :
  sync Sample.defaults
       (Sample.world (Failed Sample.notFound) (Ok Sample.deployment) None
                     Sample.applyOk (Sample.acceptUpdate 1))
  = ([EvGetConfig "cluster"; EvBootstrap], None).
Proof. reflexivity. Qed.

Example sync_of_settled_object_is_silent :
  sync Sample.defaults Sample.settledWorld
  = ([EvGetConfig "cluster";
      EvVerifyResource Sample.settledConfig; EvApply Sample.settledConfig;
      EvGetDeployment "image-registry";
      EvSyncStatus Sample.settledConfig (Some Sample.deployment) None],
     None).
Proof. reflexivity. Qed.

Example sync_records_permanent_failure_and_returns_nil :
  snd (sync Sample.defaults Sample.storageWorld) = None
  /\ filter is_write (fst (sync Sample.defaults Sample.storageWorld))
     = [EvUpdateStatus
          (mkConfig (mkObjectMeta "cluster" "" "41" 1 None [Sample.token])
                    (mkSpec operatorapi.Managed 1 None)
                    (mkStatus 1 1 [mkCondition "Degraded" "True"
                                               "StorageNotConfigured" ""]))].
Proof. split; reflexivity. Qed.

Example consumer_drops_foreign_item :
  eventProcessor Sample.defaults
    [(Sample.settledWorld, ItemOther 0, false);
     (Sample.settledWorld, ItemString "changes", true)]
  = [EvLog (SevV 1) "get event from workqueue" None;
     EvQueueForget (ItemOther 0);
     EvLog SevError "expected string in workqueue but got %#v" None;
     EvQueueDone (ItemOther 0)].
Proof. reflexivity. Qed.

(* ===================================================================== *)
(** ** Shape of a pass *)
(* ===================================================================== *)

Unset Implicit Arguments.

Ltac unfold_pass :=
  unfold logDiffError, when in *;
  unfold run, bind, call, lift, finish, emit, pure, return_ in *.

Ltac break_match :=
  match goal with
  | |- context [match ?x with _ => _ end] =>
      lazymatch x with
      | context [match _ with _ => _ end] => fail
      | _ => destruct x eqn:?
      end
  end.

Section PassShape.

Variable defaults : Defaults.
Variable env : Env.

Let configName := ImageRegistryResourceName defaults.
Let deploymentName := ImageRegistryName defaults.

Lemma sync_bootstrap (e : error) :
  RegistryConfigs_Get env configName = Failed e ->
  errors.IsNotFound e = true ->
  sync defaults env = ([EvGetConfig configName; EvBootstrap], Bootstrap env).
Proof.
  intros Hget Hnf. unfold sync. fold configName. rewrite Hget.
  unfold_pass. rewrite Hnf. reflexivity.
Qed.

Lemma sync_deleting (cr : Config) (ts : Z) :
  RegistryConfigs_Get env configName = Ok cr ->
  DeletionTimestamp (Meta cr) = Some ts ->
  sync defaults env
  = ([EvGetConfig configName; EvFinalizeResources cr],
     snd (finalizeResources env cr)).
Proof.
  intros Hget Hdel. unfold sync. fold configName. rewrite Hget.
  unfold_pass. rewrite Hdel. reflexivity.
Qed.

Lemma sync_read_failed (cr0 cr1 : Config) (t1 : list Event)
      (applyError : option error) (e : error) :
  RegistryConfigs_Get env configName = Ok cr0 ->
  DeletionTimestamp (Meta cr0) = None ->
  managementStateSwitch defaults env cr0 = (t1, (cr1, applyError)) ->
  Deployments_Get env deploymentName = Failed e ->
  errors.IsNotFound e = false ->
  sync defaults env
  = (EvGetConfig configName :: t1 ++ [EvGetDeployment deploymentName],
     Some (Errorf "failed to get %q deployment: %s"
                  [ArgString deploymentName; ArgError e])).
Proof.
  intros Hget Hdel Hsw Hdep Hnf. unfold sync.
  fold configName deploymentName. rewrite Hget.
  unfold_pass. rewrite Hdel, Hsw. cbn. rewrite Hdep, Hnf. reflexivity.
Qed.

Lemma sync_reaches_persistence (cr0 cr1 : Config) (t1 : list Event)
      (applyError : option error) (deploy : option Deployment) :
  RegistryConfigs_Get env configName = Ok cr0 ->
  DeletionTimestamp (Meta cr0) = None ->
  managementStateSwitch defaults env cr0 = (t1, (cr1, applyError)) ->
  deployment_seen (Deployments_Get env deploymentName) deploy ->
  let cr2 := syncStatus env cr1 deploy applyError in
  sync defaults env
  = (EvGetConfig configName :: t1
       ++ EvGetDeployment deploymentName :: EvSyncStatus cr1 deploy applyError
       :: fst (persistChanges env cr0 cr2 applyError),
     snd (persistChanges env cr0 cr2 applyError)).
Proof.
  intros Hget Hdel Hsw Hdep cr2. unfold sync.
  fold configName deploymentName. rewrite Hget.
  unfold_pass. rewrite Hdel, Hsw. cbn.
  unfold deployment_seen in Hdep.
  destruct (Deployments_Get env deploymentName) as [d | e].
  - subst deploy. cbn. destruct (persistChanges _ _ _ _); reflexivity.
  - destruct Hdep as [Hnf ->]. rewrite Hnf. cbn.
    destruct (persistChanges _ _ _ _); reflexivity.
Qed.

Lemma createOrUpdateResources_trace (cr : Config) :
  let cr1 := appendFinalizer defaults cr in
  fst (createOrUpdateResources defaults env cr) = [EvVerifyResource cr1]
  \/ fst (createOrUpdateResources defaults env cr)
     = [EvVerifyResource cr1; EvApply cr1].
Proof.
  intros cr1. unfold createOrUpdateResources. fold cr1. unfold_pass.
  destruct (verifyResource env cr1); [left; reflexivity|].
  destruct (generator_Apply env cr1) as [c [[]|]]; right; reflexivity.
Qed.

Lemma managementStateSwitch_dispatch (cr : Config) :
  forallb is_dispatch (fst (managementStateSwitch defaults env cr)) = true.
Proof.
  unfold managementStateSwitch.
  repeat break_match; try reflexivity.
  destruct (createOrUpdateResources_trace cr) as [-> | ->]; reflexivity.
Qed.

End PassShape.

Lemma filter_nil_of_forallb {A} (p q : A -> bool) (l : list A) :
  (forall x, p x = true -> q x = false) ->
  forallb p l = true -> filter q l = [].
Proof.
  intros Hpq. induction l as [|x l IH]; cbn; [reflexivity|].
  intros H. apply andb_true_iff in H as [Hx Hl].
  rewrite (Hpq x Hx). auto.
Qed.

Lemma not_in_of_forallb {A} (p : A -> bool) (l : list A) (x : A) :
  forallb p l = true -> p x = false -> ~ In x l.
Proof.
  intros Hall Hx Hin. rewrite forallb_forall in Hall.
  specialize (Hall x Hin). congruence.
Qed.

Lemma dispatch_not_write (ev : Event) : is_dispatch ev = true -> is_write ev = false.
Proof. destruct ev; cbn; congruence. Qed.


Lemma DeepEqual_Status_true (a b : ImageRegistryStatus) :
  DeepEqual_Status a b = true <-> a = b.
Proof.
  unfold DeepEqual_Status.
  destruct (ImageRegistryStatus_dec a b); split; congruence.
Qed.

Section Persistence.

Variable env : Env.
Variables prevCR cr : Config.
Variable applyError : option error.





End Persistence.


Section PassFacts.

Variable defaults : Defaults.
Variable env : Env.
Variables cr0 cr1 : Config.
Variable t1 : list Event.
Variable applyError : option error.
Variable deploy : option Deployment.

Hypothesis Hget :
  RegistryConfigs_Get env (ImageRegistryResourceName defaults) = Ok cr0.
Hypothesis Hdel : DeletionTimestamp (Meta cr0) = None.
Hypothesis Hsw :
  managementStateSwitch defaults env cr0 = (t1, (cr1, applyError)).
Hypothesis Hdep :
  deployment_seen (Deployments_Get env (ImageRegistryName defaults)) deploy.

Let cr2 := syncStatus env cr1 deploy applyError.
Let persistence := persistChanges env cr0 cr2 applyError.

Lemma switch_trace_dispatch : forallb is_dispatch t1 = true.
Proof.
  pose proof (managementStateSwitch_dispatch defaults env cr0) as H.
  rewrite Hsw in H. exact H.
Qed.

Lemma sync_result : snd (sync defaults env) = snd persistence.
Proof.
  rewrite (sync_reaches_persistence defaults env _ _ _ _ _ Hget Hdel Hsw Hdep).
  reflexivity.
Qed.


Lemma sync_error_log (format : string) (x : option error) :
  In (EvLog SevError format x) (fst (sync defaults env))
  <-> In (EvLog SevError format x) (fst persistence).
Proof.
  rewrite (sync_reaches_persistence defaults env _ _ _ _ _ Hget Hdel Hsw Hdep).
  cbn. rewrite in_app_iff. cbn.
  split.
  - intros [H | [H | [H | [H | H]]]]; try discriminate H; [|exact H].
    exfalso. revert H.
    apply (not_in_of_forallb is_dispatch _ _ switch_trace_dispatch). reflexivity.
  - intros H. right. right. right. right. exact H.
Qed.

End PassFacts.

(* ===================================================================== *)
(** ** Metadata/spec persistence (step 6) *)
(* ===================================================================== *)



(* ===================================================================== *)
(** ** Idempotence *)
(* ===================================================================== *)



(* ===================================================================== *)
(** ** Classification of apply failures (step 4) *)
(* ===================================================================== *)

(** C3.  [createOrUpdateResources] is what the switch runs for a Managed
    object.  When validation fails it returns a permanent error with reason
    ["VerificationFailed"] and the generator's apply step is not called; when
    validation passes and the generator returns the storage-not-configured
    sentinel, it returns a permanent error with reason
    ["StorageNotConfigured"]; any other generator error is returned as it is,
    and is not a permanent error unless the generator built one (which it
    cannot: the type is private to package [operator]). *)
Theorem createOrUpdateResources_classifies
    (defaults : Defaults) (env : Env) (cr : Config) :
  let cr1 := appendFinalizer defaults cr in
  let out := createOrUpdateResources defaults env cr in
  (ManagementState (Spec cr) = operatorapi.Managed ->
   managementStateSwitch defaults env cr = out)
  /\ (forall e, verifyResource env cr1 = Some e ->
        out = ([EvVerifyResource cr1],
               (cr1, Some (permanentError
                             (Errorf "unable to complete resource: %s" [ArgError e])
                             "VerificationFailed")))
        /\ filter is_generator_apply (fst out) = [])
  /\ (verifyResource env cr1 = None ->
      snd (generator_Apply env cr1) = Some ErrStorageNotConfigured ->
      snd (snd out)
      = Some (permanentError ErrStorageNotConfigured "StorageNotConfigured"))
  /\ (verifyResource env cr1 = None ->
      forall e, snd (generator_Apply env cr1) = Some e ->
                e <> ErrStorageNotConfigured ->
                snd (snd out) = Some e
                /\ ((forall inner reason, e <> permanentError inner reason) ->
                    isPermanentError (snd (snd out)) = false)).
Proof.
  intros cr1 out. subst out. unfold createOrUpdateResources. fold cr1.
  unfold_pass.
  split; [|split; [|split]].
  - intros Hm. unfold managementStateSwitch. rewrite Hm. cbn.
    unfold createOrUpdateResources. fold cr1. unfold_pass. reflexivity.
  - intros e Hv. rewrite Hv. cbn. split; reflexivity.
  - intros Hv Ha. rewrite Hv.
    destruct (generator_Apply env cr1) as [c err]. cbn in Ha. subst err.
    reflexivity.
  - intros Hv e Ha Hne. rewrite Hv.
    destruct (generator_Apply env cr1) as [c err]. cbn in Ha. subst err.
    destruct e; try contradiction; cbn; split; try reflexivity;
      intros Hnp; try reflexivity.
    exfalso. exact (Hnp _ _ eq_refl).
Qed.

(** Validation failing in [Sample.invalidWorld], the sentinel returned in
    [Sample.storageWorld], another generator error in [Sample.flakyWorld]. *)
Lemma createOrUpdateResources_classifies_witness :
  let cr := Sample.config operatorapi.Managed None [Sample.token] in
  (verifyResource Sample.invalidWorld cr
   = Some (ErrorString "replicas must be greater than or equal to 0")
   /\ createOrUpdateResources Sample.defaults Sample.invalidWorld cr
      = ([EvVerifyResource cr],
         (cr, Some (permanentError
                      (Errorf "unable to complete resource: %s"
                         [ArgError (ErrorString
                            "replicas must be greater than or equal to 0")])
                      "VerificationFailed"))))
  /\ (snd (generator_Apply Sample.storageWorld cr) = Some ErrStorageNotConfigured
      /\ snd (snd (createOrUpdateResources Sample.defaults Sample.storageWorld cr))
         = Some (permanentError ErrStorageNotConfigured "StorageNotConfigured"))
  /\ (snd (generator_Apply Sample.flakyWorld cr)
      = Some (ErrorString "connection refused")
      /\ snd (snd (createOrUpdateResources Sample.defaults Sample.flakyWorld cr))
         = Some (ErrorString "connection refused")
      /\ isPermanentError
           (snd (snd (createOrUpdateResources Sample.defaults Sample.flakyWorld cr)))
         = false).
Proof.
  intros cr.
  split; [|split].
  - split; [reflexivity|].
    destruct (createOrUpdateResources_classifies
                Sample.defaults Sample.invalidWorld cr) as (_ & Hverify & _).
    exact (proj1 (Hverify _ eq_refl)).
  - split; [reflexivity|].
    destruct (createOrUpdateResources_classifies
                Sample.defaults Sample.storageWorld cr) as (_ & _ & Hstorage & _).
    exact (Hstorage eq_refl eq_refl).
  - split; [reflexivity|].
    destruct (createOrUpdateResources_classifies
                Sample.defaults Sample.flakyWorld cr) as (_ & _ & _ & Hother).
    assert (Hne : ErrorString "connection refused" <> ErrStorageNotConfigured)
      by discriminate.
    destruct (Hother eq_refl _ eq_refl Hne) as [Hret Htransient].
    split; [exact Hret|].
    apply Htransient. intros inner reason. discriminate.
Defined.

(* ===================================================================== *)
(** ** Deletion branch (step 3) *)
(* ===================================================================== *)

(** C9.  When the fetched object carries a deletion timestamp, the pass
    consists of the fetch and of [finalizeResources]: no management-state
    dispatch, no status computation, no update and no status update.  What
    [finalizeResources] returns is the pass result, whatever its type, so any
    finalization failure makes the consumer requeue the sentinel key with
    rate limiting. *)
Theorem deleting_pass_only_finalizes
    (defaults : Defaults) (env : Env) (cr : Config) (ts : Z) (key : string) :
  RegistryConfigs_Get env (ImageRegistryResourceName defaults) = Ok cr ->
  DeletionTimestamp (Meta cr) = Some ts ->
  sync defaults env
  = ([EvGetConfig (ImageRegistryResourceName defaults); EvFinalizeResources cr],
     snd (finalizeResources env cr))
  /\ filter (fun ev => is_dispatch ev || is_sync_status ev || is_write ev)
            (fst (sync defaults env)) = []
  /\ forall err, snd (finalizeResources env cr) = Some err ->
       processItem defaults env (ItemString key)
       = [EvGetConfig (ImageRegistryResourceName defaults);
          EvFinalizeResources cr;
          EvQueueAddRateLimited (ItemString workqueueKey);
          EvLog SevError "unable to sync: %s, requeuing" (Some err);
          EvQueueDone (ItemString key)].
Proof.
  intros Hget Hdel.
  pose proof (sync_deleting defaults env cr ts Hget Hdel) as Hsync.
  split; [exact Hsync|]. split.
  - rewrite Hsync. reflexivity.
  - intros err Herr. unfold processItem. rewrite Hsync, Herr. reflexivity.
Qed.

(** In [Sample.deletingWorld] teardown fails with an error of the
    permanent type; the pass returns it and the key is requeued. *)
Lemma deleting_pass_only_finalizes_witness :
  let env := Sample.deletingWorld in
  let cr := Sample.config operatorapi.Managed (Some 1700000000%Z) [Sample.token] in
  let err := permanentError (ErrorString "teardown incomplete") "Teardown" in
  RegistryConfigs_Get env "cluster" = Ok cr
  /\ DeletionTimestamp (Meta cr) = Some 1700000000%Z
  /\ sync Sample.defaults env
     = ([EvGetConfig "cluster"; EvFinalizeResources cr], Some err)
  /\ processItem Sample.defaults env (ItemString workqueueKey)
     = [EvGetConfig "cluster"; EvFinalizeResources cr;
        EvQueueAddRateLimited (ItemString workqueueKey);
        EvLog SevError "unable to sync: %s, requeuing" (Some err);
        EvQueueDone (ItemString workqueueKey)].
Proof.
  intros env cr err.
  destruct (deleting_pass_only_finalizes Sample.defaults env cr
              1700000000%Z workqueueKey eq_refl eq_refl)
    as (Hsync & _ & Hrequeue).
  split; [reflexivity|]. split; [reflexivity|].
  split; [exact Hsync | exact (Hrequeue err eq_refl)].
Defined.

(* ===================================================================== *)
(** ** Deployment read failure (step 5) *)
(* ===================================================================== *)

(** C10.  When the deployment lister fails with an error other than
    not-found, the pass ends there: its result is that failure, formatted by
    [fmt.Errorf] together with the deployment name (line 146); status
    computation and both writes are not reached.  This holds whatever the
    apply error was, a permanent one included, and the consumer requeues the
    sentinel key. *)
Theorem deployment_read_failure_ends_pass
    (defaults : Defaults) (env : Env) (cr0 cr1 : Config) (t1 : list Event)
    (applyError : option error) (e : error) (key : string) :
  RegistryConfigs_Get env (ImageRegistryResourceName defaults) = Ok cr0 ->
  DeletionTimestamp (Meta cr0) = None ->
  managementStateSwitch defaults env cr0 = (t1, (cr1, applyError)) ->
  Deployments_Get env (ImageRegistryName defaults) = Failed e ->
  errors.IsNotFound e = false ->
  let failure := Errorf "failed to get %q deployment: %s"
                        [ArgString (ImageRegistryName defaults); ArgError e] in
  let t := EvGetConfig (ImageRegistryResourceName defaults)
             :: t1 ++ [EvGetDeployment (ImageRegistryName defaults)] in
  sync defaults env = (t, Some failure)
  /\ filter (fun ev => is_sync_status ev || is_write ev) t = []
  /\ processItem defaults env (ItemString key)
     = t ++ [EvQueueAddRateLimited (ItemString workqueueKey);
             EvLog SevError "unable to sync: %s, requeuing" (Some failure);
             EvQueueDone (ItemString key)].
Proof.
  intros Hget Hdel Hsw Hdep Hnf failure t.
  pose proof (sync_read_failed defaults env cr0 cr1 t1 applyError e
                Hget Hdel Hsw Hdep Hnf) as Hsync.
  fold failure in Hsync. fold t in Hsync.
  split; [exact Hsync|]. split.
  - subst t. cbn. rewrite filter_app. cbn. rewrite app_nil_r.
    apply (filter_nil_of_forallb is_dispatch).
    + intros ev. destruct ev; cbn; congruence.
    + pose proof (managementStateSwitch_dispatch defaults env cr0) as H.
      rewrite Hsw in H. exact H.
  - unfold processItem. rewrite Hsync. rewrite <- app_assoc. reflexivity.
Qed.

(** In [Sample.brokenCacheWorld] the apply error is the permanent
    storage-not-configured failure and the deployment lister fails. *)
Lemma deployment_read_failure_ends_pass_witness :
  let env := Sample.brokenCacheWorld in
  let cr0 := Sample.config operatorapi.Managed None [Sample.token] in
  let failure := Errorf "failed to get %q deployment: %s"
                   [ArgString "image-registry";
                    ArgError (ErrorString "cache not synced")] in
  RegistryConfigs_Get env "cluster" = Ok cr0
  /\ DeletionTimestamp (Meta cr0) = None
  /\ isPermanentError (snd (snd (managementStateSwitch Sample.defaults env cr0))) = true
  /\ Deployments_Get env "image-registry" = Failed (ErrorString "cache not synced")
  /\ sync Sample.defaults env
     = ([EvGetConfig "cluster"; EvVerifyResource cr0; EvApply cr0;
         EvGetDeployment "image-registry"],
        Some failure).
Proof.
  intros env cr0 failure.
  destruct (deployment_read_failure_ends_pass Sample.defaults env cr0 cr0
              [EvVerifyResource cr0; EvApply cr0]
              (Some (permanentError ErrStorageNotConfigured "StorageNotConfigured"))
              (ErrorString "cache not synced") workqueueKey
              eq_refl eq_refl eq_refl eq_refl eq_refl)
    as (Hsync & _ & _).
  split; [reflexivity|]. split; [reflexivity|]. split; [reflexivity|].
  split; [reflexivity | exact Hsync].
Defined.

(* ===================================================================== *)
(** ** Pass result and requeue policy (step 8) *)
(* ===================================================================== *)

Lemma persistChanges_no_queue_call
    (env : Env) (prevCR cr : Config) (applyError : option error) :
  forallb (fun ev => negb (is_queue_call ev))
          (fst (persistChanges env prevCR cr applyError)) = true.
Proof.
  unfold persistChanges. unfold_pass.
  repeat (break_match; cbn); reflexivity.
Qed.

Lemma persistChanges_permanent_swallowed
    (env : Env) (prevCR cr : Config) (applyError : option error) :
  isPermanentError applyError = true ->
  forallb (fun ev => negb (step_failed env ev))
          (fst (persistChanges env prevCR cr applyError)) = true ->
  snd (persistChanges env prevCR cr applyError) = None.
Proof.
  intros Hperm. unfold persistChanges. unfold_pass. rewrite Hperm.
  repeat (break_match; cbn); intros Hok; try reflexivity; try congruence;
    exfalso; rewrite ?forallb_app in Hok; cbn in Hok;
    repeat match goal with
           | H : Configs_Update _ _ = _ |- _ => rewrite H in Hok
           | H : Configs_UpdateStatus _ _ = _ |- _ => rewrite H in Hok
           end;
    cbn in Hok; rewrite ?andb_false_r in Hok; discriminate Hok.
Qed.

Lemma queue_after_no_calls (q : Workqueue) (t : list Event) :
  forallb (fun ev => negb (is_queue_call ev)) t = true ->
  queue_after q t = q.
Proof.
  unfold queue_after. revert q.
  induction t as [|ev t IH]; intros q Hall; [reflexivity|].
  cbn in Hall. apply andb_true_iff in Hall as [Hev Ht].
  cbn. rewrite <- (IH q Ht) at 2. f_equal.
  destruct ev; cbn in Hev; try discriminate Hev; reflexivity.
Qed.

Lemma dispatch_no_queue_call (t : list Event) :
  forallb is_dispatch t = true ->
  forallb (fun ev => negb (is_queue_call ev)) t = true.
Proof.
  rewrite !forallb_forall. intros H ev Hin. specialize (H ev Hin).
  destruct ev; cbn in *; congruence.
Qed.

Lemma sync_no_queue_call (defaults : Defaults) (env : Env) :
  forallb (fun ev => negb (is_queue_call ev)) (fst (sync defaults env)) = true.
Proof.
  destruct (RegistryConfigs_Get env (ImageRegistryResourceName defaults))
    as [cr0 | e] eqn:Hget.
  - destruct (DeletionTimestamp (Meta cr0)) as [ts|] eqn:Hdel.
    + rewrite (sync_deleting defaults env cr0 ts Hget Hdel). reflexivity.
    + destruct (managementStateSwitch defaults env cr0) as [t1 [cr1 ae]] eqn:Hsw.
      assert (Ht1 : forallb (fun ev => negb (is_queue_call ev)) t1 = true).
      { apply dispatch_no_queue_call.
        pose proof (managementStateSwitch_dispatch defaults env cr0) as H.
        rewrite Hsw in H. exact H. }
      destruct (Deployments_Get env (ImageRegistryName defaults))
        as [d | e] eqn:Hdep; [|destruct (errors.IsNotFound e) eqn:Hnf].
      * rewrite (sync_reaches_persistence defaults env cr0 cr1 t1 ae (Some d)
                   Hget Hdel Hsw); [|rewrite Hdep; reflexivity].
        cbn. rewrite forallb_app, Ht1. cbn.
        apply persistChanges_no_queue_call.
      * rewrite (sync_reaches_persistence defaults env cr0 cr1 t1 ae None
                   Hget Hdel Hsw); [|rewrite Hdep; split; [exact Hnf | reflexivity]].
        cbn. rewrite forallb_app, Ht1. cbn.
        apply persistChanges_no_queue_call.
      * rewrite (sync_read_failed defaults env cr0 cr1 t1 ae e
                   Hget Hdel Hsw Hdep Hnf).
        cbn. rewrite forallb_app, Ht1. reflexivity.
  - unfold sync. rewrite Hget. unfold_pass.
    destruct (errors.IsNotFound e); reflexivity.
Qed.

(** C4.  A permanent apply or remove failure, with every later read and
    write of the pass succeeding, makes [sync] return nil.  The consumer
    answers a non-nil pass result by adding the sentinel key back with rate
    limiting, and a nil result by forgetting the dequeued key: nothing is
    enqueued, and the rate limiter's failure count for the key is back to
    zero. *)
Theorem pass_result_drives_requeue
    (defaults : Defaults) (env : Env) (key : string) (q : Workqueue) :
  let t := fst (sync defaults env) in
  let obj := ItemString key in
  let sentinel := ItemString workqueueKey in
  let calls := processItem defaults env obj in
  (forall cr0 cr1 t1 inner reason,
     RegistryConfigs_Get env (ImageRegistryResourceName defaults) = Ok cr0 ->
     DeletionTimestamp (Meta cr0) = None ->
     managementStateSwitch defaults env cr0
     = (t1, (cr1, Some (permanentError inner reason))) ->
     forallb (fun ev => negb (step_failed env ev)) t = true ->
     snd (sync defaults env) = None)
  /\ (forall err, snd (sync defaults env) = Some err ->
        calls = t ++ [EvQueueAddRateLimited sentinel;
                      EvLog SevError "unable to sync: %s, requeuing" (Some err);
                      EvQueueDone obj]
        /\ In sentinel (delayed (queue_after q calls))
        /\ numRequeues (queue_after q calls) sentinel = S (numRequeues q sentinel))
  /\ (snd (sync defaults env) = None ->
        calls = t ++ [EvQueueForget obj;
                      EvLog SevInfo "event from workqueue successfully processed" None;
                      EvQueueDone obj]
        /\ filter is_enqueue calls = []
        /\ numRequeues (queue_after q calls) obj = 0%nat
        /\ ready (queue_after q calls) = ready q
        /\ delayed (queue_after q calls) = delayed q).
Proof.
  intros t obj sentinel calls.
  pose proof (sync_no_queue_call defaults env) as Hnq. fold t in Hnq.
  split; [|split].
  - intros cr0 cr1 t1 inner reason Hget Hdel Hsw Hok.
    destruct (Deployments_Get env (ImageRegistryName defaults))
      as [d | e] eqn:Hdep; [|destruct (errors.IsNotFound e) eqn:Hnf].
    + subst t.
      rewrite (sync_reaches_persistence defaults env cr0 cr1 t1 _ (Some d)
                 Hget Hdel Hsw) in Hok |- *; [|rewrite Hdep; reflexivity ..].
      cbn in Hok |- *. rewrite forallb_app in Hok.
      apply andb_true_iff in Hok as [_ Hok]. cbn in Hok.
      rewrite Hdep in Hok. cbn in Hok.
      apply persistChanges_permanent_swallowed; [reflexivity | exact Hok].
    + subst t.
      rewrite (sync_reaches_persistence defaults env cr0 cr1 t1 _ None
                 Hget Hdel Hsw) in Hok |- *;
        [|rewrite Hdep; split; [exact Hnf | reflexivity] ..].
      cbn in Hok |- *. rewrite forallb_app in Hok.
      apply andb_true_iff in Hok as [_ Hok]. cbn in Hok.
      rewrite Hdep, Hnf in Hok. cbn in Hok.
      apply persistChanges_permanent_swallowed; [reflexivity | exact Hok].
    + exfalso. subst t.
      rewrite (sync_read_failed defaults env cr0 cr1 t1 _ e
                 Hget Hdel Hsw Hdep Hnf) in Hok.
      cbn in Hok. rewrite forallb_app in Hok.
      apply andb_true_iff in Hok as [_ Hok]. cbn in Hok.
      rewrite Hdep, Hnf in Hok. discriminate Hok.
  - intros err Herr.
    assert (Hcalls : calls = t ++ [EvQueueAddRateLimited sentinel;
                        EvLog SevError "unable to sync: %s, requeuing" (Some err);
                        EvQueueDone obj]).
    { subst calls t. unfold processItem.
      destruct (sync defaults env) as [t' r]. cbn in Herr. subst r.
      subst obj. cbn. rewrite <- app_assoc. reflexivity. }
    split; [exact Hcalls|]. rewrite Hcalls.
    unfold queue_after. rewrite fold_left_app.
    fold (queue_after q t). rewrite (queue_after_no_calls q t Hnq).
    cbn -[Item_dec in_dec].
    split.
    + destruct (in_dec Item_dec sentinel (delayed q)) as [Hin | Hout];
        [exact Hin | apply in_or_app; right; left; reflexivity].
    + destruct (Item_dec sentinel sentinel); congruence.
  - intros Hnil.
    assert (Hcalls : calls = t ++ [EvQueueForget obj;
                        EvLog SevInfo "event from workqueue successfully processed" None;
                        EvQueueDone obj]).
    { subst calls t. unfold processItem.
      destruct (sync defaults env) as [t' r]. cbn in Hnil. subst r.
      subst obj. cbn. rewrite <- app_assoc. reflexivity. }
    split; [exact Hcalls|]. rewrite Hcalls.
    split.
    + rewrite filter_app. cbn. rewrite app_nil_r.
      apply (filter_nil_of_forallb (fun ev => negb (is_queue_call ev))); [|exact Hnq].
      intros ev. destruct ev; cbn; congruence.
    + unfold queue_after. rewrite fold_left_app.
      fold (queue_after q t). rewrite (queue_after_no_calls q t Hnq).
      cbn -[Item_dec in_dec].
      split; [|split; reflexivity].
      destruct (Item_dec obj obj); congruence.
Qed.

(** [Sample.storageWorld]: the apply failure is permanent, the writes are
    accepted, the pass returns nil and the key is forgotten.
    [Sample.conflictWorld]: the pass returns the conflict and the sentinel is
    added back, a third failure for the rate limiter. *)
Lemma pass_result_drives_requeue_witness :
  let obj := ItemString workqueueKey in
  let cr0 := Sample.config operatorapi.Managed None [Sample.token] in
  let swallowed := processItem Sample.defaults Sample.storageWorld obj in
  let retried := processItem Sample.defaults Sample.conflictWorld obj in
  (managementStateSwitch Sample.defaults Sample.storageWorld cr0
   = ([EvVerifyResource cr0; EvApply cr0],
      (cr0, Some (permanentError ErrStorageNotConfigured "StorageNotConfigured")))
   /\ snd (sync Sample.defaults Sample.storageWorld) = None
   /\ filter is_enqueue swallowed = []
   /\ numRequeues (queue_after Sample.backedOffQueue swallowed) obj = 0%nat)
  /\ (snd (sync Sample.defaults Sample.conflictWorld) = Some Sample.conflict
      /\ In obj (delayed (queue_after Sample.backedOffQueue retried))
      /\ numRequeues (queue_after Sample.backedOffQueue retried) obj = 3%nat).
Proof.
  intros obj cr0 swallowed retried.
  split.
  - destruct (pass_result_drives_requeue Sample.defaults Sample.storageWorld
                workqueueKey Sample.backedOffQueue) as (Hswallow & _ & Hforget).
    assert (Hnil : snd (sync Sample.defaults Sample.storageWorld) = None).
    { exact (Hswallow cr0 cr0 [EvVerifyResource cr0; EvApply cr0]
                      ErrStorageNotConfigured "StorageNotConfigured"
                      eq_refl eq_refl eq_refl eq_refl). }
    destruct (Hforget Hnil) as (_ & Hnone & Hzero & _).
    split; [reflexivity|]. split; [exact Hnil|].
    split; [exact Hnone | exact Hzero].
  - destruct (pass_result_drives_requeue Sample.defaults Sample.conflictWorld
                workqueueKey Sample.backedOffQueue) as (_ & Hrequeue & _).
    destruct (Hrequeue Sample.conflict eq_refl) as (_ & Hin & Hcount).
    split; [reflexivity|]. split; [exact Hin | exact Hcount].
Defined.

(* ===================================================================== *)
(** ** The event funnel *)
(* ===================================================================== *)

(** C5.  An update notification whose old and new objects carry the same
    resource version is discarded: the handler returns without a queue call,
    whatever the kind, name and namespace of the objects. *)
Theorem echo_update_discarded
    (defaults : Defaults) (o n : Object) (oldMeta newMeta : ObjectMeta) :
  kmeta.Accessor o = Ok oldMeta ->
  kmeta.Accessor n = Ok newMeta ->
  ResourceVersion newMeta = ResourceVersion oldMeta ->
  UpdateFunc defaults o n = ([], Returned)
  /\ filter is_enqueue (fst (UpdateFunc defaults o n)) = [].
Proof.
  intros Ho Hn Hrv.
  assert (H : UpdateFunc defaults o n = ([], Returned)).
  { unfold UpdateFunc. unfold_pass. rewrite Hn, Ho, Hrv, String.eqb_refl.
    reflexivity. }
  rewrite H. split; reflexivity.
Qed.

(** The periodic resync of the registry deployment. *)
Lemma echo_update_discarded_witness :
  let o := Sample.registryDeployment in
  kmeta.Accessor o
  = Ok (mkObjectMeta "image-registry" "openshift-image-registry" "7" 1 None [])
  /\ UpdateFunc Sample.defaults o o = ([], Returned).
Proof.
  intros o. split; [reflexivity|].
  exact (proj1 (echo_update_discarded Sample.defaults o o _ _
                  eq_refl eq_refl eq_refl)).
Defined.

(** C2.  A delete notification delivered as a tombstone around an API object
    makes the delete handler panic: the unwrapped object is recovered and
    logged, the ClusterOperator filter is then applied to the tombstone
    itself, and the single-valued assertion of line 295, again on the
    tombstone, fails.  Nothing is enqueued. *)
Theorem DeleteFunc_tombstone_panics
    (defaults : Defaults) (key kind : string) (m : ObjectMeta) :
  DeleteFunc defaults (DeletedFinalStateUnknown key (ApiObject kind m))
  = ([EvLog (SevV 4) "recovered deleted object %q from tombstone" None], Panicked)
  /\ DeleteFunc defaults (DeletedFinalStateUnknown key (ClusterOperator m))
     = ([EvLog (SevV 4) "recovered deleted object %q from tombstone" None], Panicked).
Proof. split; reflexivity. Qed.

(** The delete handler on notifications that are not wrapped, and on
    tombstones it cannot unwrap, returns. *)
Lemma DeleteFunc_returns_unless_unwrapped (defaults : Defaults) (o : Object) :
  snd (DeleteFunc defaults o) = Panicked <->
  exists key inner m,
    o = DeletedFinalStateUnknown key inner /\ asMetaObject inner = Some m.
Proof.
  unfold DeleteFunc, relevanceFilters, mustMetaObject. unfold_pass.
  split.
  - destruct o as [m | kind m | key inner | descr]; cbn.
    + repeat (break_match; cbn); discriminate.
    + repeat (break_match; cbn); discriminate.
    + destruct (asMetaObject inner) as [m|] eqn:Hin; cbn; [|discriminate].
      intros _. exists key, inner, m. split; [reflexivity | exact Hin].
    + discriminate.
  - intros (key & inner & m & -> & Hin). cbn. rewrite Hin. reflexivity.
Qed.

(* ===================================================================== *)
(** ** Generation tracking *)
(* ===================================================================== *)

Lemma store_after_non_writes (env : Env) (p : Config) (t : list Event) :
  filter is_write t = [] -> store_after env p t = p.
Proof.
  unfold store_after. revert p.
  induction t as [|ev t IH]; intros p Hnw; [reflexivity|].
  cbn in Hnw. destruct (is_write ev) eqn:Hev; [discriminate Hnw|].
  cbn. rewrite <- (IH p Hnw) at 2. f_equal.
  destruct ev; cbn in Hev; try discriminate Hev; reflexivity.
Qed.

Lemma persistChanges_store
    (env : Env) (prevCR cr : Config) (applyError : option error) :
  snd (persistChanges env prevCR cr applyError) = None ->
  let t := fst (persistChanges env prevCR cr applyError) in
  let persisted := store_after env prevCR t in
  ObservedGeneration (Status persisted) = Generation (Meta cr)
  /\ ((filter is_update t = [] /\ Meta persisted = Meta prevCR)
      \/ (exists updatedCR, Configs_Update env cr = Ok updatedCR
                            /\ Meta persisted = Meta updatedCR)).
Proof.
  unfold persistChanges. unfold_pass.
  repeat (break_match; cbn); intros Hres; try discriminate Hres; try congruence;
    unfold store_after; rewrite ?fold_left_app; cbn;
    repeat match goal with
           | H : Ok _ = Ok _ |- _ => injection H as H; subst
           | H : Configs_Update _ _ = _ |- _ => rewrite H
           | H : Configs_UpdateStatus _ _ = _ |- _ => rewrite H
           | H : negb (DeepEqual_Status _ _) = false |- _ =>
               apply negb_false_iff, DeepEqual_Status_true in H; rewrite H
           end;
    cbn; (split; [reflexivity|]); eauto.
Qed.

(** C8, as the code has it.  After a pass that fetched the object, found no
    deletion timestamp and returned nil, the status held by the store has
    [observedGeneration] equal to the generation of the pass's working copy:
    line 177 sets it, and the status update is issued whenever the status
    group then differs from the pre-pass copy.  The generation held by the
    store is the fetched one when no update was issued, and otherwise the one
    of the store's answer to the update, of which the pass keeps the version
    token only; so the two persisted numbers agree when the steps of the pass
    and the store's answer leave the generation alone. *)
Theorem observedGeneration_persisted
    (defaults : Defaults) (env : Env) (cr0 cr1 : Config) (t1 : list Event)
    (applyError : option error) (deploy : option Deployment) :
  RegistryConfigs_Get env (ImageRegistryResourceName defaults) = Ok cr0 ->
  DeletionTimestamp (Meta cr0) = None ->
  managementStateSwitch defaults env cr0 = (t1, (cr1, applyError)) ->
  deployment_seen (Deployments_Get env (ImageRegistryName defaults)) deploy ->
  snd (sync defaults env) = None ->
  let cr2 := syncStatus env cr1 deploy applyError in
  let persisted := store_after env cr0 (fst (sync defaults env)) in
  ObservedGeneration (Status persisted) = Generation (Meta cr2)
  /\ (Generation (Meta cr2) = Generation (Meta cr0) ->
      (forall updatedCR, Configs_Update env cr2 = Ok updatedCR ->
                         Generation (Meta updatedCR) = Generation (Meta cr2)) ->
      ObservedGeneration (Status persisted) = Generation (Meta persisted)).
Proof.
  intros Hget Hdel Hsw Hdep Hnil cr2 persisted.
  rewrite (sync_result defaults env _ _ _ _ _ Hget Hdel Hsw Hdep) in Hnil.
  fold cr2 in Hnil.
  assert (Hp : persisted
               = store_after env cr0 (fst (persistChanges env cr0 cr2 applyError))).
  { subst persisted.
    rewrite (sync_reaches_persistence defaults env _ _ _ _ _ Hget Hdel Hsw Hdep).
    fold cr2. cbn. unfold store_after. rewrite fold_left_app.
    fold (store_after env cr0 t1).
    rewrite (store_after_non_writes env cr0 t1); [reflexivity|].
    apply (filter_nil_of_forallb is_dispatch); [exact dispatch_not_write|].
    exact (switch_trace_dispatch defaults env _ _ _ _ Hsw). }
  destruct (persistChanges_store env cr0 cr2 applyError Hnil) as [Hog Hmeta].
  rewrite <- Hp in Hog, Hmeta.
  split; [exact Hog|].
  intros Hgen Hstore. rewrite Hog.
  destruct Hmeta as [[_ Hm] | (updatedCR & Hup & Hm)]; rewrite Hm.
  - exact Hgen.
  - symmetry. exact (Hstore updatedCR Hup).
Qed.

(** [Sample.managedWorld]: the pass appends the finalizer, the store keeps
    generation 1, and the persisted status observes generation 1. *)
Lemma observedGeneration_persisted_witness :
  let env := Sample.managedWorld in
  let cr0 := Sample.config operatorapi.Managed None [] in
  let persisted := store_after env cr0 (fst (sync Sample.defaults env)) in
  RegistryConfigs_Get env "cluster" = Ok cr0
  /\ DeletionTimestamp (Meta cr0) = None
  /\ snd (sync Sample.defaults env) = None
  /\ ObservedGeneration (Status persisted) = 1%Z
  /\ ObservedGeneration (Status persisted) = Generation (Meta persisted).
Proof.
  intros env cr0 persisted.
  destruct (observedGeneration_persisted Sample.defaults env cr0
              (appendFinalizer Sample.defaults cr0)
              [EvVerifyResource (appendFinalizer Sample.defaults cr0);
               EvApply (appendFinalizer Sample.defaults cr0)]
              None (Some Sample.deployment)
              eq_refl eq_refl eq_refl eq_refl eq_refl) as [Hog Hagree].
  split; [reflexivity|]. split; [reflexivity|]. split; [reflexivity|].
  split; [exact Hog|].
  apply Hagree; [reflexivity|].
  intros updatedCR Hup. cbn in Hup. unfold Sample.acceptUpdate in Hup.
  injection Hup as <-. reflexivity.
Defined.

(** C8 as stated fails when the update of the pass makes the store assign a
    new generation.  In [Sample.defaultingWorld] the generator fills in the
    storage, the update is accepted and answered with generation 2, the status
    update is accepted, the pass returns nil: the store then holds generation
    2 and [observedGeneration] 1. *)
Lemma observedGeneration_lags_after_spec_update :
  let env := Sample.defaultingWorld in
  let cr0 := Sample.config operatorapi.Managed None [Sample.token] in
  let t := fst (sync Sample.defaults env) in
  let persisted := store_after env cr0 t in
  RegistryConfigs_Get env "cluster" = Ok cr0
  /\ DeletionTimestamp (Meta cr0) = None
  /\ snd (sync Sample.defaults env) = None
  /\ ~ In EvBootstrap t
  /\ Generation (Meta persisted) = 2%Z
  /\ ObservedGeneration (Status persisted) = 1%Z
  /\ ObservedGeneration (Status persisted) <> Generation (Meta persisted).
Proof.
  cbv zeta.
  split; [reflexivity|]. split; [reflexivity|]. split; [reflexivity|].
  split; [|split; [reflexivity|split; [reflexivity|]]].
  - vm_compute. intuition discriminate.
  - vm_compute. discriminate.
Qed.

(* ===================================================================== *)
(** ** Finalizer lifecycle *)
(* ===================================================================== *)

Lemma existsb_eqb_In (token : string) (l : list string) :
  existsb (String.eqb token) l = true <-> In token l.
Proof.
  rewrite existsb_exists. split.
  - intros (x & Hin & Heq). apply String.eqb_eq in Heq. subst x. exact Hin.
  - intros Hin. exists token. split; [exact Hin | apply String.eqb_refl].
Qed.

Lemma appendFinalizer_present (defaults : Defaults) (cr : Config) :
  In (ImageRegistryOperatorResourceFinalizer defaults)
     (Finalizers (Meta (appendFinalizer defaults cr))).
Proof.
  unfold appendFinalizer.
  destruct (existsb _ (Finalizers (Meta cr))) eqn:E.
  - apply existsb_eqb_In. exact E.
  - cbn. apply in_or_app. right. left. reflexivity.
Qed.

Lemma appendFinalizer_noop (defaults : Defaults) (cr : Config) :
  In (ImageRegistryOperatorResourceFinalizer defaults) (Finalizers (Meta cr)) ->
  appendFinalizer defaults cr = cr.
Proof.
  intros Hin. unfold appendFinalizer.
  apply existsb_eqb_In in Hin. rewrite Hin. reflexivity.
Qed.

Lemma appendFinalizer_appends (defaults : Defaults) (cr : Config) :
  ~ In (ImageRegistryOperatorResourceFinalizer defaults) (Finalizers (Meta cr)) ->
  Finalizers (Meta (appendFinalizer defaults cr))
  = Finalizers (Meta cr) ++ [ImageRegistryOperatorResourceFinalizer defaults].
Proof.
  intros Hout. unfold appendFinalizer.
  destruct (existsb _ (Finalizers (Meta cr))) eqn:E.
  - exfalso. apply Hout. apply existsb_eqb_In. exact E.
  - reflexivity.
Qed.

Lemma createOrUpdateResources_object (defaults : Defaults) (env : Env) (cr : Config) :
  let cr1 := appendFinalizer defaults cr in
  fst (snd (createOrUpdateResources defaults env cr)) = cr1
  \/ fst (snd (createOrUpdateResources defaults env cr))
     = fst (generator_Apply env cr1).
Proof.
  intros cr1. unfold createOrUpdateResources. fold cr1. unfold_pass.
  destruct (verifyResource env cr1); [left; reflexivity|].
  destruct (generator_Apply env cr1) as [c [[]|]]; right; reflexivity.
Qed.

Lemma persistChanges_written_finalizers
    (env : Env) (prevCR cr : Config) (applyError : option error) (c : Config) :
  In (EvUpdate c) (fst (persistChanges env prevCR cr applyError))
  \/ In (EvUpdateStatus c) (fst (persistChanges env prevCR cr applyError)) ->
  Finalizers (Meta c) = Finalizers (Meta cr).
Proof.
  unfold persistChanges. unfold_pass.
  repeat (break_match; cbn); try congruence;
    rewrite ?in_app_iff; cbn;
    intros H; decompose [or] H; try discriminate; try contradiction;
    match goal with
    | E : EvUpdate _ = EvUpdate _ |- _ => injection E as <-
    | E : EvUpdateStatus _ = EvUpdateStatus _ |- _ => injection E as <-
    end; reflexivity.
Qed.

Lemma persistChanges_update_then_status
    (env : Env) (prevCR cr : Config) (applyError : option error) :
  update_then_status (filter is_write (fst (persistChanges env prevCR cr applyError))).
Proof.
  unfold persistChanges, update_then_status. unfold_pass.
  repeat (break_match; cbn); rewrite ?filter_app; cbn; eauto 8.
Qed.

Lemma sync_non_deleting
    (defaults : Defaults) (env : Env) (cr0 cr1 : Config) (t1 : list Event)
    (applyError : option error) :
  RegistryConfigs_Get env (ImageRegistryResourceName defaults) = Ok cr0 ->
  DeletionTimestamp (Meta cr0) = None ->
  managementStateSwitch defaults env cr0 = (t1, (cr1, applyError)) ->
  (exists failure,
     sync defaults env
     = (EvGetConfig (ImageRegistryResourceName defaults)
          :: t1 ++ [EvGetDeployment (ImageRegistryName defaults)],
        Some failure))
  \/ (exists deploy,
        let cr2 := syncStatus env cr1 deploy applyError in
        sync defaults env
        = (EvGetConfig (ImageRegistryResourceName defaults) :: t1
             ++ EvGetDeployment (ImageRegistryName defaults)
             :: EvSyncStatus cr1 deploy applyError
             :: fst (persistChanges env cr0 cr2 applyError),
           snd (persistChanges env cr0 cr2 applyError))).
Proof.
  intros Hget Hdel Hsw.
  destruct (Deployments_Get env (ImageRegistryName defaults))
    as [d | e] eqn:Hdep; [|destruct (errors.IsNotFound e) eqn:Hnf].
  - right. exists (Some d).
    apply (sync_reaches_persistence defaults env _ _ _ _ _ Hget Hdel Hsw).
    rewrite Hdep. reflexivity.
  - right. exists None.
    apply (sync_reaches_persistence defaults env _ _ _ _ _ Hget Hdel Hsw).
    rewrite Hdep. split; [exact Hnf | reflexivity].
  - left. eexists.
    apply (sync_read_failed defaults env _ _ _ _ _ Hget Hdel Hsw Hdep Hnf).
Qed.

(** Where the events of a non-deleting pass can come from. *)
Lemma sync_non_deleting_event
    (defaults : Defaults) (env : Env) (cr0 cr1 : Config) (t1 : list Event)
    (applyError : option error) (ev : Event) :
  RegistryConfigs_Get env (ImageRegistryResourceName defaults) = Ok cr0 ->
  DeletionTimestamp (Meta cr0) = None ->
  managementStateSwitch defaults env cr0 = (t1, (cr1, applyError)) ->
  In ev (fst (sync defaults env)) ->
  ev = EvGetConfig (ImageRegistryResourceName defaults)
  \/ In ev t1
  \/ ev = EvGetDeployment (ImageRegistryName defaults)
  \/ exists deploy,
       ev = EvSyncStatus cr1 deploy applyError
       \/ In ev (fst (persistChanges env cr0 (syncStatus env cr1 deploy applyError)
                                     applyError)).
Proof.
  intros Hget Hdel Hsw.
  destruct (sync_non_deleting defaults env cr0 cr1 t1 applyError Hget Hdel Hsw)
    as [[failure ->] | [deploy ->]]; cbn; rewrite in_app_iff; cbn.
  - intuition auto.
  - intros [H | [H | [H | [H | H]]]]; auto.
    + right. right. right. exists deploy. left. auto.
    + right. right. right. exists deploy. right. exact H.
Qed.

(** C1, as the code has it.  On a pass that finds no deletion timestamp:
    - for a Managed object the working copy gets the finalizer token first
      (appended at the end if absent, left alone if present); validation and
      the generator's apply step see that copy, and, provided the generator
      and status computation leave the token in place, every object the pass
      writes carries it;
    - for an Unmanaged object or an unrecognized state the switch hands the
      fetched object on unchanged, no token appended;
    - in every state the pass writes the object at most through the one
      update and the one status update of steps 6 and 7: the append has no
      write of its own. *)
Theorem finalizer_appended_on_managed_pass
    (defaults : Defaults) (env : Env) (cr0 : Config) :
  RegistryConfigs_Get env (ImageRegistryResourceName defaults) = Ok cr0 ->
  DeletionTimestamp (Meta cr0) = None ->
  let token := ImageRegistryOperatorResourceFinalizer defaults in
  let cr1 := appendFinalizer defaults cr0 in
  let t := fst (sync defaults env) in
  (ManagementState (Spec cr0) = operatorapi.Managed ->
   In token (Finalizers (Meta cr1))
   /\ (In token (Finalizers (Meta cr0)) -> cr1 = cr0)
   /\ (~ In token (Finalizers (Meta cr0)) ->
       Finalizers (Meta cr1) = Finalizers (Meta cr0) ++ [token])
   /\ (exists rest,
         t = EvGetConfig (ImageRegistryResourceName defaults)
               :: EvVerifyResource cr1 :: rest)
   /\ (forall c, In (EvApply c) t -> c = cr1)
   /\ ((forall c, In token (Finalizers (Meta c)) ->
                  In token (Finalizers (Meta (fst (generator_Apply env c))))) ->
       (forall c d a, In token (Finalizers (Meta c)) ->
                      In token (Finalizers (Meta (syncStatus env c d a)))) ->
       forall c, In (EvUpdate c) t \/ In (EvUpdateStatus c) t ->
                 In token (Finalizers (Meta c))))
  /\ (ManagementState (Spec cr0) <> operatorapi.Managed ->
      ManagementState (Spec cr0) <> operatorapi.Removed ->
      fst (snd (managementStateSwitch defaults env cr0)) = cr0
      /\ forall c d a, In (EvSyncStatus c d a) t -> c = cr0)
  /\ update_then_status (filter is_write t).
Proof.
  intros Hget Hdel token cr1 t.
  destruct (managementStateSwitch defaults env cr0) as [t1 [cr1' ae]] eqn:Hsw.
  pose proof (switch_trace_dispatch defaults env _ _ _ _ Hsw) as Hdisp.
  pose proof (fun ev => sync_non_deleting_event defaults env cr0 cr1' t1 ae ev
                          Hget Hdel Hsw) as Hev.
  fold t in Hev.
  split; [|split].
  - intros Hmanaged.
    assert (Hcreate : createOrUpdateResources defaults env cr0 = (t1, (cr1', ae))).
    { rewrite <- Hsw. unfold managementStateSwitch. rewrite Hmanaged. reflexivity. }
    pose proof (createOrUpdateResources_trace defaults env cr0) as Htrace.
    pose proof (createOrUpdateResources_object defaults env cr0) as Hobj.
    rewrite Hcreate in Htrace, Hobj. cbn in Htrace, Hobj. fold cr1 in Htrace, Hobj.
    split; [apply appendFinalizer_present|].
    split; [apply appendFinalizer_noop|].
    split; [apply appendFinalizer_appends|].
    split; [|split].
    + subst t.
      destruct (sync_non_deleting defaults env cr0 cr1' t1 ae Hget Hdel Hsw)
        as [[failure ->] | [deploy ->]];
        destruct Htrace as [-> | ->]; cbn; eexists; reflexivity.
    + intros c Hin. apply Hev in Hin.
      destruct Hin as [H | [H | [H | [deploy [H | H]]]]]; try discriminate H.
      * destruct Htrace as [-> | ->]; cbn in H;
          intuition (try discriminate; congruence).
      * exfalso. revert H.
        apply (not_in_of_forallb (fun ev => negb (is_generator_apply ev))).
        -- unfold persistChanges. unfold_pass.
           repeat (break_match; cbn); reflexivity.
        -- reflexivity.
    + intros Happly Hstatus c Hin.
      assert (Hcr1' : In token (Finalizers (Meta cr1'))).
      { destruct Hobj as [-> | ->];
          [|apply Happly]; apply appendFinalizer_present. }
      assert (Hwritten : exists deploy,
                 In (EvUpdate c) (fst (persistChanges env cr0
                                         (syncStatus env cr1' deploy ae) ae))
                 \/ In (EvUpdateStatus c) (fst (persistChanges env cr0
                                         (syncStatus env cr1' deploy ae) ae))).
      { destruct Hin as [Hin | Hin]; apply Hev in Hin;
          destruct Hin as [H | [H | [H | [deploy [H | H]]]]]; try discriminate H;
          try (exfalso; revert H;
               apply (not_in_of_forallb is_dispatch _ _ Hdisp); reflexivity);
          exists deploy; auto. }
      destruct Hwritten as [deploy Hwritten].
      rewrite (persistChanges_written_finalizers env cr0 _ ae c Hwritten).
      apply Hstatus. exact Hcr1'.
  - intros Hnm Hnr.
    assert (Hcr : cr1' = cr0).
    { unfold managementStateSwitch in Hsw.
      apply String.eqb_neq in Hnm, Hnr. rewrite Hnm, Hnr in Hsw.
      destruct (String.eqb _ operatorapi.Unmanaged); congruence. }
    split; [exact Hcr|].
    intros c d a Hin. apply Hev in Hin.
    destruct Hin as [H | [H | [H | [deploy [H | H]]]]]; try discriminate H.
    + exfalso. revert H.
      apply (not_in_of_forallb is_dispatch _ _ Hdisp). reflexivity.
    + congruence.
    + exfalso. revert H.
      apply (not_in_of_forallb (fun ev => negb (is_sync_status ev))).
      * unfold persistChanges. unfold_pass.
        repeat (break_match; cbn); reflexivity.
      * reflexivity.
  - assert (Ht1 : filter is_write t1 = [])
      by exact (filter_nil_of_forallb is_dispatch is_write t1
                  dispatch_not_write Hdisp).
    subst t.
    destruct (sync_non_deleting defaults env cr0 cr1' t1 ae Hget Hdel Hsw)
      as [[failure ->] | [deploy ->]]; cbn; rewrite filter_app, Ht1; cbn.
    + left. reflexivity.
    + apply persistChanges_update_then_status.
Qed.

(** [Sample.managedWorld]: the finalizer is appended before validation and
    the update of the pass carries it. *)
Lemma finalizer_appended_on_managed_pass_witness :
  let env := Sample.managedWorld in
  let cr0 := Sample.config operatorapi.Managed None [] in
  let cr1 := appendFinalizer Sample.defaults cr0 in
  let t := fst (sync Sample.defaults env) in
  RegistryConfigs_Get env "cluster" = Ok cr0
  /\ DeletionTimestamp (Meta cr0) = None
  /\ ManagementState (Spec cr0) = operatorapi.Managed
  /\ Finalizers (Meta cr1) = [Sample.token]
  /\ (forall c, In (EvUpdate c) t \/ In (EvUpdateStatus c) t ->
                In Sample.token (Finalizers (Meta c)))
  /\ update_then_status (filter is_write t).
Proof.
  intros env cr0 cr1 t.
  destruct (finalizer_appended_on_managed_pass Sample.defaults env cr0
              eq_refl eq_refl) as (Hmanaged & _ & Hwrites).
  destruct (Hmanaged eq_refl) as (_ & _ & Happends & _ & _ & Hcarried).
  split; [reflexivity|]. split; [reflexivity|]. split; [reflexivity|].
  split; [|split; [|exact Hwrites]].
  - apply Happends. cbn. tauto.
  - apply Hcarried.
    + intros c Hin. exact Hin.
    + intros c d a Hin. exact Hin.
Defined.

(** C1 as stated fails for an Unmanaged object.  In [Sample.unmanagedWorld]
    the object has no deletion timestamp and no finalizer; the pass reads it,
    computes status on it as fetched, writes nothing and returns nil: the
    token is in no finalizer set, neither of the working copy nor of the
    stored object. *)
Lemma finalizer_not_appended_when_unmanaged :
  let env := Sample.unmanagedWorld in
  let cr0 := Sample.config operatorapi.Unmanaged None [] in
  RegistryConfigs_Get env "cluster" = Ok cr0
  /\ DeletionTimestamp (Meta cr0) = None
  /\ sync Sample.defaults env
     = ([EvGetConfig "cluster"; EvGetDeployment "image-registry";
         EvSyncStatus cr0 None None], None)
  /\ ~ In Sample.token (Finalizers (Meta cr0))
  /\ ~ In Sample.token
       (Finalizers (Meta (store_after env cr0 (fst (sync Sample.defaults env))))).
Proof.
  cbv zeta.
  split; [reflexivity|]. split; [reflexivity|]. split; [reflexivity|].
  split; vm_compute; tauto.
Qed.

(* ===================================================================== *)
(** ** More on the event funnel *)
(* ===================================================================== *)

Lemma relevanceFilters_on_object
    (defaults : Defaults) (o : Object) (m : ObjectMeta) :
  asMetaObject o = Some m ->
  relevanceFilters defaults o
  = if relevant defaults o then ([], Next tt) else ([], Return Returned).
Proof.
  intros Hm. unfold relevanceFilters, mustMetaObject, relevant, sharedNamespaceNoise.
  unfold_pass.
  destruct o as [co | kind am | key inner | descr]; cbn in Hm |- *;
    try discriminate Hm.
  - destruct (String.eqb (Name co) _); cbn; [|reflexivity].
    destruct (String.eqb (Namespace co) "kube-system" && _); reflexivity.
  - destruct (String.eqb (Namespace am) "kube-system" && _); reflexivity.
Qed.

Lemma AddFunc_on_object (defaults : Defaults) (o : Object) (m : ObjectMeta) :
  asMetaObject o = Some m ->
  AddFunc defaults o
  = (if relevant defaults o
     then [EvLog (SevV 1) "add event to workqueue due to %s (add)" None;
           EvQueueAdd (ItemString workqueueKey)]
     else [],
     Returned).
Proof.
  intros Hm. unfold AddFunc.
  unfold bind at 1. rewrite (relevanceFilters_on_object defaults o m Hm).
  destruct (relevant defaults o); reflexivity.
Qed.

(** X1.  The add handler on an API object enqueues the sentinel key exactly
    when the object is relevant, and returns either way; on a value that is
    not an API object (a tombstone, a foreign value) the assertion of line
    240 panics before anything is enqueued. *)
Theorem AddFunc_decision (defaults : Defaults) (o : Object) :
  (forall m, asMetaObject o = Some m ->
     AddFunc defaults o
     = (if relevant defaults o
        then [EvLog (SevV 1) "add event to workqueue due to %s (add)" None;
              EvQueueAdd (ItemString workqueueKey)]
        else [],
        Returned))
  /\ (asMetaObject o = None -> AddFunc defaults o = ([], Panicked)).
Proof.
  split.
  - intros m Hm. exact (AddFunc_on_object defaults o m Hm).
  - intros Hnone. unfold AddFunc, relevanceFilters, mustMetaObject. unfold_pass.
    destruct o; cbn in Hnone |- *; try discriminate Hnone; reflexivity.
Qed.

Lemma AddFunc_decision_witness :
  asMetaObject Sample.registryDeployment
  = Some (mkObjectMeta "image-registry" "openshift-image-registry" "7" 1 None [])
  /\ relevant Sample.defaults Sample.registryDeployment = true
  /\ AddFunc Sample.defaults Sample.registryDeployment
     = ([EvLog (SevV 1) "add event to workqueue due to %s (add)" None;
         EvQueueAdd (ItemString workqueueKey)], Returned)
  /\ asMetaObject (DeletedFinalStateUnknown "k" Sample.registryDeployment) = None
  /\ AddFunc Sample.defaults (DeletedFinalStateUnknown "k" Sample.registryDeployment)
     = ([], Panicked).
Proof.
  destruct (AddFunc_decision Sample.defaults Sample.registryDeployment)
    as [Hobj _].
  destruct (AddFunc_decision Sample.defaults
              (DeletedFinalStateUnknown "k" Sample.registryDeployment))
    as [_ Hpanic].
  split; [reflexivity|]. split; [reflexivity|].
  split; [exact (Hobj _ eq_refl)|].
  split; [reflexivity | exact (Hpanic eq_refl)].
Defined.

(** X2.  The update handler enqueues the sentinel key exactly when both
    objects have an accessor, their resource versions differ, and the old
    object is relevant; in every other case it makes no queue call.  The new
    object enters the decision through its resource version only. *)
Theorem UpdateFunc_decision (defaults : Defaults) (o n : Object) :
  filter is_queue_call (fst (UpdateFunc defaults o n))
  = match asMetaObject o, asMetaObject n with
    | Some oldMeta, Some newMeta =>
        if negb (String.eqb (ResourceVersion newMeta) (ResourceVersion oldMeta))
           && relevant defaults o
        then [EvQueueAdd (ItemString workqueueKey)]
        else []
    | _, _ => []
    end.
Proof.
  unfold UpdateFunc, kmeta.Accessor.
  destruct (asMetaObject n) as [newMeta|] eqn:Hn.
  - destruct (asMetaObject o) as [oldMeta|] eqn:Ho.
    + unfold bind at 1. unfold pure at 1. unfold bind at 1. unfold pure at 1.
      destruct (String.eqb (ResourceVersion newMeta) (ResourceVersion oldMeta));
        [reflexivity|].
      unfold bind at 1. unfold pure at 1. unfold bind at 1.
      rewrite (relevanceFilters_on_object defaults o oldMeta Ho).
      destruct (relevant defaults o); reflexivity.
    + destruct o; cbn in Ho; try discriminate Ho; reflexivity.
  - destruct o, n; cbn in Hn |- *; try discriminate Hn; reflexivity.
Qed.

(** X3.  The delete handler on an API object delivered as it is takes the
    same decision as the add handler; on a tombstone, whatever it wraps, it
    makes no queue call. *)
Theorem DeleteFunc_decision (defaults : Defaults) (o : Object) :
  (forall m, asMetaObject o = Some m ->
     DeleteFunc defaults o
     = (if relevant defaults o
        then [EvLog (SevV 1) "add event to workqueue due to %s (delete)" None;
              EvQueueAdd (ItemString workqueueKey)]
        else [],
        Returned)
     /\ filter is_queue_call (fst (DeleteFunc defaults o))
        = filter is_queue_call (fst (AddFunc defaults o)))
  /\ (forall key inner,
        o = DeletedFinalStateUnknown key inner ->
        filter is_queue_call (fst (DeleteFunc defaults o)) = []).
Proof.
  split.
  - intros m Hm.
    assert (Hdel : DeleteFunc defaults o
                   = (if relevant defaults o
                      then [EvLog (SevV 1)
                                  "add event to workqueue due to %s (delete)" None;
                            EvQueueAdd (ItemString workqueueKey)]
                      else [], Returned)).
    { unfold DeleteFunc. rewrite Hm.
      unfold bind at 1. unfold pure at 1. unfold bind at 1.
      rewrite (relevanceFilters_on_object defaults o m Hm).
      destruct (relevant defaults o); reflexivity. }
    split; [exact Hdel|].
    rewrite Hdel, (AddFunc_on_object defaults o m Hm).
    destruct (relevant defaults o); reflexivity.
  - intros key inner ->.
    unfold DeleteFunc, relevanceFilters, mustMetaObject. unfold_pass. cbn.
    destruct (asMetaObject inner); reflexivity.
Qed.

Lemma DeleteFunc_decision_witness :
  asMetaObject Sample.foreignConfigMap
  = Some (mkObjectMeta "kube-proxy" "kube-system" "12" 1 None [])
  /\ DeleteFunc Sample.defaults Sample.foreignConfigMap = ([], Returned)
  /\ filter is_queue_call
       (fst (DeleteFunc Sample.defaults
               (DeletedFinalStateUnknown "k" Sample.registryDeployment))) = [].
Proof.
  destruct (DeleteFunc_decision Sample.defaults Sample.foreignConfigMap)
    as [Hobj _].
  destruct (DeleteFunc_decision Sample.defaults
              (DeletedFinalStateUnknown "k" Sample.registryDeployment))
    as [_ Htomb].
  split; [reflexivity|].
  split; [exact (proj1 (Hobj _ eq_refl)) | exact (Htomb _ _ eq_refl)].
Defined.

(** X4.  Whatever the notification, a handler makes at most one queue call,
    and that call is a plain [Add] of the sentinel key ["changes"]: the funnel
    never adds another key, never adds with rate limiting, and never forgets
    or completes an item. *)
Theorem funnel_posts_only_the_sentinel (defaults : Defaults) (o n : Object) :
  let posted (h : list Event * Exit) :=
    filter is_queue_call (fst h) = []
    \/ filter is_queue_call (fst h) = [EvQueueAdd (ItemString "changes")] in
  posted (AddFunc defaults o)
  /\ posted (UpdateFunc defaults o n)
  /\ posted (DeleteFunc defaults o).
Proof.
  cbv zeta.
  assert (Hfilters : forall x,
             relevanceFilters defaults x = ([], Next tt)
             \/ relevanceFilters defaults x = ([], Return Returned)
             \/ relevanceFilters defaults x = ([], Return Panicked)).
  { intros x. unfold relevanceFilters, mustMetaObject. unfold_pass.
    repeat (break_match; cbn); auto. }
  unfold AddFunc, UpdateFunc, DeleteFunc, kmeta.Accessor.
  destruct (Hfilters o) as [H | [H | H]]; rewrite H; unfold_pass;
    (split; [|split]); repeat (break_match; cbn); auto.
Qed.

(* ===================================================================== *)
(** ** More on the queue consumer *)
(* ===================================================================== *)

(** The queue calls the consumer makes for one dequeued item. *)
Lemma processItem_queue_calls (defaults : Defaults) (env : Env) (obj : Item) :
  filter is_queue_call (processItem defaults env obj)
  = match obj, snd (sync defaults env) with
    | ItemString _, Some _ =>
        [EvQueueAddRateLimited (ItemString workqueueKey); EvQueueDone obj]
    | _, _ => [EvQueueForget obj; EvQueueDone obj]
    end.
Proof.
  unfold processItem. destruct obj as [s | tag]; [|reflexivity].
  pose proof (sync_no_queue_call defaults env) as Hnq.
  destruct (sync defaults env) as [t r]. cbn in Hnq |- *.
  assert (Ht : filter is_queue_call t = []).
  { apply (filter_nil_of_forallb (fun ev => negb (is_queue_call ev))); [|exact Hnq].
    intros ev. destruct (is_queue_call ev); cbn; congruence. }
  rewrite !filter_app, Ht. destruct r; reflexivity.
Qed.

(** X5.  While no shutdown is signalled, the consumer completes every item
    it dequeues exactly once, right after its single other queue call for
    that item: a rate-limited add of the sentinel key when the item is a
    string and the pass failed, a forget of the item otherwise.  An item that
    is not a string is forgotten without a pass being run. *)
Theorem consumer_completes_every_item
    (defaults : Defaults) (gets : list (Env * Item * bool)) :
  forallb (fun g => negb (snd g)) gets = true ->
  filter is_queue_call (eventProcessor defaults gets)
  = flat_map (fun g : Env * Item * bool =>
                let env := fst (fst g) in
                let obj := snd (fst g) in
                match obj, snd (sync defaults env) with
                | ItemString _, Some _ =>
                    [EvQueueAddRateLimited (ItemString workqueueKey);
                     EvQueueDone obj]
                | _, _ => [EvQueueForget obj; EvQueueDone obj]
                end) gets
  /\ filter is_done (eventProcessor defaults gets)
     = map (fun g : Env * Item * bool => EvQueueDone (snd (fst g))) gets
  /\ forall env tag,
       processItem defaults env (ItemOther tag)
       = [EvQueueForget (ItemOther tag);
          EvLog SevError "expected string in workqueue but got %#v" None;
          EvQueueDone (ItemOther tag)].
Proof.
  intros Hrun.
  assert (Hdone_of_calls : forall l,
             filter is_done l = filter is_done (filter is_queue_call l)).
  { induction l as [|ev l IH]; [reflexivity|].
    destruct ev; cbn; rewrite ?IH; reflexivity. }
  assert (Hcalls : filter is_queue_call (eventProcessor defaults gets)
                   = flat_map (fun g : Env * Item * bool =>
                       match snd (fst g), snd (sync defaults (fst (fst g))) with
                       | ItemString _, Some _ =>
                           [EvQueueAddRateLimited (ItemString workqueueKey);
                            EvQueueDone (snd (fst g))]
                       | _, _ => [EvQueueForget (snd (fst g));
                                  EvQueueDone (snd (fst g))]
                       end) gets).
  { induction gets as [|[[env obj] shutdown] rest IH]; [reflexivity|].
    cbn in Hrun. apply andb_true_iff in Hrun as [Hhead Hrest].
    destruct shutdown; [discriminate Hhead|].
    cbn [eventProcessor flat_map fst snd].
    cbn [filter is_queue_call]. rewrite filter_app, (IH Hrest).
    rewrite processItem_queue_calls. reflexivity. }
  split; [exact Hcalls|]. split; [|reflexivity].
  rewrite Hdone_of_calls, Hcalls. clear Hcalls Hrun.
  induction gets as [|[[env obj] shutdown] rest IH]; [reflexivity|].
  cbn [flat_map map fst snd]. rewrite filter_app, IH.
  destruct obj, (snd (sync defaults env)); reflexivity.
Qed.

Lemma consumer_completes_every_item_witness :
  let gets := [(Sample.conflictWorld, ItemString "changes", false);
               (Sample.settledWorld, ItemOther 7, false);
               (Sample.settledWorld, ItemString "changes", false)] in
  forallb (fun g : Env * Item * bool => negb (snd g)) gets = true
  /\ filter is_queue_call (eventProcessor Sample.defaults gets)
     = [EvQueueAddRateLimited (ItemString "changes"); EvQueueDone (ItemString "changes");
        EvQueueForget (ItemOther 7); EvQueueDone (ItemOther 7);
        EvQueueForget (ItemString "changes"); EvQueueDone (ItemString "changes")].
Proof.
  intros gets. split; [reflexivity|].
  exact (proj1 (consumer_completes_every_item Sample.defaults gets eq_refl)).
Defined.

(** X6.  The consumer stops at the first shutdown answer of the queue: the
    item that comes with it and every later answer are left alone, and what
    was dequeued before is processed in order, one pass per item. *)
Theorem consumer_stops_at_shutdown
    (defaults : Defaults) (before rest : list (Env * Item * bool))
    (env : Env) (obj : Item) :
  forallb (fun g => negb (snd g)) before = true ->
  eventProcessor defaults (before ++ (env, obj, true) :: rest)
  = eventProcessor defaults before
  /\ eventProcessor defaults before
     = flat_map (fun g : Env * Item * bool =>
                   EvLog (SevV 1) "get event from workqueue" None
                     :: processItem defaults (fst (fst g)) (snd (fst g)))
                before.
Proof.
  intros Hrun.
  induction before as [|[[env' obj'] shutdown] before IH]; [split; reflexivity|].
  cbn in Hrun. apply andb_true_iff in Hrun as [Hhead Hrest].
  destruct shutdown; [discriminate Hhead|].
  destruct (IH Hrest) as [IHstop IHall].
  split.
  - cbn [app eventProcessor]. rewrite IHstop. reflexivity.
  - cbn [eventProcessor flat_map fst snd]. rewrite IHall. reflexivity.
Qed.

Lemma consumer_stops_at_shutdown_witness :
  let before := [(Sample.settledWorld, ItemString "changes", false)] in
  forallb (fun g : Env * Item * bool => negb (snd g)) before = true
  /\ eventProcessor Sample.defaults
       (before ++ (Sample.conflictWorld, ItemString "changes", true)
               :: [(Sample.conflictWorld, ItemString "changes", false)])
     = eventProcessor Sample.defaults before.
Proof.
  intros before. split; [reflexivity|].
  exact (proj1 (consumer_stops_at_shutdown Sample.defaults before
                  [(Sample.conflictWorld, ItemString "changes", false)]
                  Sample.conflictWorld (ItemString "changes") eq_refl)).
Defined.

(* ===================================================================== *)
(** ** More on the sync pass *)
(* ===================================================================== *)

Lemma sync_fetch_failed (defaults : Defaults) (env : Env) (e : error) :
  RegistryConfigs_Get env (ImageRegistryResourceName defaults) = Failed e ->
  errors.IsNotFound e = false ->
  sync defaults env
  = ([EvGetConfig (ImageRegistryResourceName defaults)],
     Some (Errorf "failed to get %q registry operator resource: %s"
                  [ArgString (ImageRegistryResourceName defaults); ArgError e])).
Proof.
  intros Hget Hnf. unfold sync. rewrite Hget. unfold_pass. rewrite Hnf.
  reflexivity.
Qed.

(** The four ways a pass can go. *)
Lemma sync_cases (defaults : Defaults) (env : Env) :
  (exists e, sync defaults env
             = ([EvGetConfig (ImageRegistryResourceName defaults); EvBootstrap],
                Bootstrap env)
             /\ RegistryConfigs_Get env (ImageRegistryResourceName defaults)
                = Failed e)
  \/ (exists failure,
        sync defaults env
        = ([EvGetConfig (ImageRegistryResourceName defaults)], Some failure))
  \/ (exists cr,
        sync defaults env
        = ([EvGetConfig (ImageRegistryResourceName defaults);
            EvFinalizeResources cr],
           snd (finalizeResources env cr)))
  \/ (exists cr0 cr1 t1 applyError,
        RegistryConfigs_Get env (ImageRegistryResourceName defaults) = Ok cr0
        /\ DeletionTimestamp (Meta cr0) = None
        /\ managementStateSwitch defaults env cr0 = (t1, (cr1, applyError))).
Proof.
  destruct (RegistryConfigs_Get env (ImageRegistryResourceName defaults))
    as [cr0 | e] eqn:Hget.
  - destruct (DeletionTimestamp (Meta cr0)) as [ts|] eqn:Hdel.
    + right. right. left. exists cr0.
      exact (sync_deleting defaults env cr0 ts Hget Hdel).
    + right. right. right.
      destruct (managementStateSwitch defaults env cr0) as [t1 [cr1 ae]] eqn:Hsw.
      exists cr0, cr1, t1, ae. auto.
  - destruct (errors.IsNotFound e) eqn:Hnf.
    + left. exists e. split; [|reflexivity].
      exact (sync_bootstrap defaults env e Hget Hnf).
    + right. left. eexists. exact (sync_fetch_failed defaults env e Hget Hnf).
Qed.

Lemma switch_resource_calls (defaults : Defaults) (env : Env) (cr : Config) :
  let calls := filter is_resource_call (fst (managementStateSwitch defaults env cr)) in
  calls = []
  \/ calls = [EvRemoveResources cr]
  \/ (exists c, calls = [EvVerifyResource c] /\ verifyResource env c <> None)
  \/ (exists c, calls = [EvVerifyResource c; EvApply c]
                /\ verifyResource env c = None).
Proof.
  unfold managementStateSwitch.
  destruct (String.eqb _ operatorapi.Removed); [right; left; reflexivity|].
  destruct (String.eqb _ operatorapi.Managed).
  - unfold createOrUpdateResources. unfold_pass.
    set (cr1 := appendFinalizer defaults cr).
    destruct (verifyResource env cr1) as [e|] eqn:Hv.
    + right. right. left. exists cr1. split; [reflexivity | congruence].
    + right. right. right. exists cr1.
      destruct (generator_Apply env cr1) as [c [[]|]]; cbn; auto.
  - destruct (String.eqb _ operatorapi.Unmanaged); left; reflexivity.
Qed.

Lemma persistChanges_no_resource_call
    (env : Env) (prevCR cr : Config) (applyError : option error) :
  filter is_resource_call (fst (persistChanges env prevCR cr applyError)) = [].
Proof.
  unfold persistChanges. unfold_pass.
  repeat (break_match; cbn); rewrite ?filter_app; reflexivity.
Qed.

Lemma persistChanges_status_update_generation
    (env : Env) (prevCR cr : Config) (applyError : option error) (c : Config) :
  In (EvUpdateStatus c) (fst (persistChanges env prevCR cr applyError)) ->
  ObservedGeneration (Status c) = Generation (Meta c).
Proof.
  unfold persistChanges. unfold_pass.
  repeat (break_match; cbn); try congruence;
    rewrite ?in_app_iff; cbn;
    intros H; decompose [or] H; try discriminate; try contradiction;
    match goal with
    | E : EvUpdateStatus _ = EvUpdateStatus _ |- _ => injection E as <-
    end; reflexivity.
Qed.

(** X7.  Whatever the world answers, one pass writes the desired-state
    object at most twice: at most one update, followed by at most one status
    update; a status update is never followed by an update. *)
Theorem pass_writes_update_then_status (defaults : Defaults) (env : Env) :
  update_then_status (filter is_write (fst (sync defaults env))).
Proof.
  destruct (sync_cases defaults env)
    as [(e & -> & _) | [(failure & ->) | [(cr & ->)
        | (cr0 & cr1 & t1 & ae & Hget & Hdel & Hsw)]]];
    try (left; reflexivity).
  assert (Ht1 : filter is_write t1 = []).
  { apply (filter_nil_of_forallb is_dispatch); [exact dispatch_not_write|].
    exact (switch_trace_dispatch defaults env _ _ _ _ Hsw). }
  destruct (sync_non_deleting defaults env cr0 cr1 t1 ae Hget Hdel Hsw)
    as [[failure ->] | [deploy ->]]; cbn; rewrite filter_app, Ht1; cbn.
  - left. reflexivity.
  - apply persistChanges_update_then_status.
Qed.

(** X8.  Every status update a pass sends carries an [observedGeneration]
    equal to the generation in the metadata of the same object (line 177
    runs before line 186 on every path). *)
Theorem status_update_carries_generation
    (defaults : Defaults) (env : Env) (c : Config) :
  In (EvUpdateStatus c) (fst (sync defaults env)) ->
  ObservedGeneration (Status c) = Generation (Meta c).
Proof.
  destruct (sync_cases defaults env)
    as [(e & -> & _) | [(failure & ->) | [(cr & ->)
        | (cr0 & cr1 & t1 & ae & Hget & Hdel & Hsw)]]];
    try (cbn; intuition discriminate).
  intros Hin.
  apply (sync_non_deleting_event defaults env cr0 cr1 t1 ae _ Hget Hdel Hsw) in Hin.
  destruct Hin as [H | [H | [H | [deploy [H | H]]]]]; try discriminate H.
  - exfalso. revert H.
    apply (not_in_of_forallb is_dispatch _ _
             (switch_trace_dispatch defaults env _ _ _ _ Hsw)).
    reflexivity.
  - exact (persistChanges_status_update_generation env cr0 _ ae c H).
Qed.

Lemma status_update_carries_generation_witness :
  exists c,
    In (EvUpdateStatus c) (fst (sync Sample.defaults Sample.defaultingWorld))
    /\ ObservedGeneration (Status c) = 1%Z
    /\ ObservedGeneration (Status c) = Generation (Meta c).
Proof.
  eexists. split; [|split].
  - cbn. repeat (first [left; reflexivity | right]).
  - reflexivity.
  - apply (status_update_carries_generation Sample.defaults Sample.defaultingWorld).
    cbn. repeat (first [left; reflexivity | right]).
Defined.

(** X9.  In one pass the generator and teardown calls are one of: none
    (deleting, Unmanaged or unrecognized state, failed fetch); a single
    [RemoveResources]; a single validation that failed; a validation that
    passed followed by one [generator.Apply] on the very object that was
    validated.  Teardown and apply never meet in one pass, and apply never
    runs on an object that was not validated. *)
Theorem pass_resource_calls (defaults : Defaults) (env : Env) :
  let calls := filter is_resource_call (fst (sync defaults env)) in
  calls = []
  \/ (exists c, calls = [EvRemoveResources c])
  \/ (exists c, calls = [EvVerifyResource c] /\ verifyResource env c <> None)
  \/ (exists c, calls = [EvVerifyResource c; EvApply c]
                /\ verifyResource env c = None).
Proof.
  cbv zeta.
  destruct (sync_cases defaults env)
    as [(e & -> & _) | [(failure & ->) | [(cr & ->)
        | (cr0 & cr1 & t1 & ae & Hget & Hdel & Hsw)]]];
    try (left; reflexivity).
  assert (Hcalls : filter is_resource_call (fst (sync defaults env))
                   = filter is_resource_call t1).
  { destruct (sync_non_deleting defaults env cr0 cr1 t1 ae Hget Hdel Hsw)
      as [[failure ->] | [deploy ->]]; cbn; rewrite filter_app; cbn.
    - apply app_nil_r.
    - rewrite persistChanges_no_resource_call. apply app_nil_r. }
  rewrite Hcalls.
  pose proof (switch_resource_calls defaults env cr0) as Hsw'.
  rewrite Hsw in Hsw'. cbn in Hsw'.
  destruct Hsw' as [H | [H | [H | H]]]; auto.
  right. left. exists cr0. exact H.
Qed.

(** X10.  A pass never touches the work queue: adding, forgetting and
    completing keys is left to the consumer and the handlers. *)
Theorem pass_makes_no_queue_call (defaults : Defaults) (env : Env) :
  filter is_queue_call (fst (sync defaults env)) = [].
Proof.
  apply (filter_nil_of_forallb (fun ev => negb (is_queue_call ev))).
  - intros ev. destruct (is_queue_call ev); cbn; congruence.
  - apply sync_no_queue_call.
Qed.

Ltac status_contradiction :=
  match goal with
  | Hst : Status ?p = Status ?c, H : negb (DeepEqual_Status (Status ?p) _) = true |- _ =>
      exfalso; apply negb_true_iff in H;
      apply DeepEqual_Status_true in Hst;
      assert (true = false) by (rewrite <- Hst; exact H); discriminate
  | Hst : Status ?p <> Status ?c, H : negb (DeepEqual_Status (Status ?p) _) = false |- _ =>
      exfalso; apply negb_false_iff, DeepEqual_Status_true in H;
      apply Hst; exact H
  end.

Ltac bool_contradiction :=
  exfalso;
  repeat match goal with
         | H : negb true = true |- _ => discriminate H
         | H : negb false = false |- _ => discriminate H
         | H : ?b = _, H' : negb ?b = _ |- _ => rewrite H in H'
         | H : ?b = _, H' : context [?b] |- _ => rewrite H in H'
         end;
  congruence.

Lemma persistChanges_status_protocol
    (env : Env) (prevCR cr cr3 : Config) (applyError : option error) :
  afterUpdate env prevCR cr = Some cr3 ->
  let cr4 := set_ObservedGeneration (Generation (Meta cr3)) cr3 in
  let t := fst (persistChanges env prevCR cr applyError) in
  let r := snd (persistChanges env prevCR cr applyError) in
  (Status prevCR = Status cr4 ->
   filter is_status_update t = []
   /\ r = if isPermanentError applyError then None else applyError)
  /\ (Status prevCR <> Status cr4 ->
      filter is_status_update t = [EvUpdateStatus cr4]
      /\ match Configs_UpdateStatus env cr4 with
         | Failed err =>
             r = Some err
             /\ (if errors.IsConflict err
                 then forall x,
                     ~ In (EvLog SevError "unable to update status %s: %s" x) t
                 else In (EvLog SevError "unable to update status %s: %s"
                                (Some err)) t)
         | Ok _ => r = if isPermanentError applyError then None else applyError
         end).
Proof.
  unfold afterUpdate, persistChanges.
  destruct (strategy_Metadata env (Meta prevCR) (Meta cr)
            || negb (DeepEqual_Spec (Spec prevCR) (Spec cr)));
    [destruct (Configs_Update env cr) as [updatedCR | refused]; [|discriminate]|];
    intros [= <-]; cbv zeta; unfold_pass;
    (split; intros Hst);
    repeat (break_match; cbn); try status_contradiction; try congruence;
    try bool_contradiction;
    rewrite ?filter_app; cbn;
    repeat match goal with
           | |- _ /\ _ => split
           | |- forall _, ~ _ =>
               let Hin := fresh "Hin" in
               intros ? Hin; rewrite ?in_app_iff in Hin; cbn in Hin;
               decompose [or] Hin; try discriminate; try contradiction
           | |- _ \/ _ => solve [repeat (first [left; reflexivity | right])]
           | |- _ => reflexivity
           end.
Qed.

(** X11.  Status persistence (lines 177-195).  In a pass that gets past the
    metadata/spec step with working copy [cr3], the status update is issued
    exactly when the status, with [observedGeneration] set, differs from the
    pre-pass status, and then once, for the whole working copy.  A refusal is
    the pass result and is logged as an error unless it is a version
    conflict.  When no status update is needed or the store accepts it, the
    pass result is the apply error, or nil if that error is permanent. *)
Theorem status_update_protocol
    (defaults : Defaults) (env : Env) (cr0 cr1 cr3 : Config) (t1 : list Event)
    (applyError : option error) (deploy : option Deployment) :
  RegistryConfigs_Get env (ImageRegistryResourceName defaults) = Ok cr0 ->
  DeletionTimestamp (Meta cr0) = None ->
  managementStateSwitch defaults env cr0 = (t1, (cr1, applyError)) ->
  deployment_seen (Deployments_Get env (ImageRegistryName defaults)) deploy ->
  afterUpdate env cr0 (syncStatus env cr1 deploy applyError) = Some cr3 ->
  let cr4 := set_ObservedGeneration (Generation (Meta cr3)) cr3 in
  let t := fst (sync defaults env) in
  let r := snd (sync defaults env) in
  (Status cr0 = Status cr4 ->
   filter is_status_update t = []
   /\ r = if isPermanentError applyError then None else applyError)
  /\ (Status cr0 <> Status cr4 ->
      filter is_status_update t = [EvUpdateStatus cr4]
      /\ match Configs_UpdateStatus env cr4 with
         | Failed err =>
             r = Some err
             /\ (if errors.IsConflict err
                 then forall x,
                     ~ In (EvLog SevError "unable to update status %s: %s" x) t
                 else In (EvLog SevError "unable to update status %s: %s"
                                (Some err)) t)
         | Ok _ => r = if isPermanentError applyError then None else applyError
         end).
Proof.
  intros Hget Hdel Hsw Hdep Hafter cr4 t r.
  pose proof (persistChanges_status_protocol env cr0 _ cr3 applyError Hafter)
    as [Hsame Hdiff].
  assert (Hr : r = snd (persistChanges env cr0
                          (syncStatus env cr1 deploy applyError) applyError))
    by exact (sync_result defaults env _ _ _ _ _ Hget Hdel Hsw Hdep).
  assert (Hws : filter is_status_update t
                = filter is_status_update
                    (fst (persistChanges env cr0
                            (syncStatus env cr1 deploy applyError) applyError))).
  { subst t.
    rewrite (sync_reaches_persistence defaults env _ _ _ _ _ Hget Hdel Hsw Hdep).
    cbn. rewrite filter_app. cbn.
    rewrite (filter_nil_of_forallb is_dispatch is_status_update t1);
      [reflexivity | | exact (switch_trace_dispatch defaults env _ _ _ _ Hsw)].
    intros ev. destruct ev; cbn; congruence. }
  split; intros Hst.
  - destruct (Hsame Hst) as [Hnone Hres]. rewrite Hws, Hr. auto.
  - destruct (Hdiff Hst) as [Hone Hres]. rewrite Hws, Hr.
    split; [exact Hone|].
    fold cr4 in Hres |- *.
    destruct (Configs_UpdateStatus env cr4) as [u | err]; [exact Hres|].
    destruct Hres as [Hret Hlog]. split; [exact Hret|].
    destruct (errors.IsConflict err).
    + intros x Hin. apply (Hlog x).
      apply (sync_error_log defaults env _ _ _ _ _ Hget Hdel Hsw Hdep). exact Hin.
    + apply (sync_error_log defaults env _ _ _ _ _ Hget Hdel Hsw Hdep). exact Hlog.
Qed.

(** [Sample.storageWorld]: the permanent failure changes the conditions, the
    status update is accepted and the pass returns nil. *)
Lemma status_update_protocol_witness :
  let env := Sample.storageWorld in
  let cr0 := Sample.config operatorapi.Managed None [Sample.token] in
  let failure := permanentError ErrStorageNotConfigured "StorageNotConfigured" in
  let cr4 := mkConfig (Meta cr0) (Spec cr0)
               (mkStatus 1 1 [mkCondition "Degraded" "True" "StorageNotConfigured" ""]) in
  afterUpdate env cr0 (syncStatus env cr0 (Some Sample.deployment) (Some failure))
  = Some cr4
  /\ Status cr0 <> Status cr4
  /\ filter is_status_update (fst (sync Sample.defaults env)) = [EvUpdateStatus cr4]
  /\ snd (sync Sample.defaults env) = None.
Proof.
  intros env cr0 failure cr4.
  assert (Hne : Status cr0 <> Status cr4) by discriminate.
  destruct (status_update_protocol Sample.defaults env cr0 cr0 cr4
              [EvVerifyResource cr0; EvApply cr0] (Some failure)
              (Some Sample.deployment)
              eq_refl eq_refl eq_refl eq_refl eq_refl) as [_ Hdiff].
  destruct (Hdiff Hne) as [Hone Hres].
  split; [reflexivity|]. split; [exact Hne|].
  split; [exact Hone | exact Hres].
Defined.

Lemma persistChanges_transient_returned
    (env : Env) (prevCR cr : Config) (applyError : option error) :
  isPermanentError applyError = false ->
  forallb (fun ev => negb (step_failed env ev))
          (fst (persistChanges env prevCR cr applyError)) = true ->
  snd (persistChanges env prevCR cr applyError) = applyError.
Proof.
  intros Hperm. unfold persistChanges. unfold_pass. rewrite Hperm.
  repeat (break_match; cbn); intros Hok; try reflexivity; try congruence;
    exfalso; rewrite ?forallb_app in Hok; cbn in Hok;
    repeat match goal with
           | H : Configs_Update _ _ = _ |- _ => rewrite H in Hok
           | H : Configs_UpdateStatus _ _ = _ |- _ => rewrite H in Hok
           end;
    cbn in Hok; rewrite ?andb_false_r in Hok; discriminate Hok.
Qed.

(** X12.  An apply or remove failure that is not permanent does not cut the
    pass short: status computation receives it, the writes go ahead, and when
    every read and write of the pass succeeds the failure itself is the pass
    result, so the consumer requeues the sentinel key. *)
Theorem transient_apply_failure_is_returned
    (defaults : Defaults) (env : Env) (cr0 cr1 : Config) (t1 : list Event)
    (e : error) (key : string) :
  RegistryConfigs_Get env (ImageRegistryResourceName defaults) = Ok cr0 ->
  DeletionTimestamp (Meta cr0) = None ->
  managementStateSwitch defaults env cr0 = (t1, (cr1, Some e)) ->
  isPermanentError (Some e) = false ->
  forallb (fun ev => negb (step_failed env ev)) (fst (sync defaults env)) = true ->
  snd (sync defaults env) = Some e
  /\ (exists deploy, In (EvSyncStatus cr1 deploy (Some e)) (fst (sync defaults env)))
  /\ filter is_queue_call (processItem defaults env (ItemString key))
     = [EvQueueAddRateLimited (ItemString workqueueKey);
        EvQueueDone (ItemString key)].
Proof.
  intros Hget Hdel Hsw Htransient Hok.
  assert (Hshape : exists deploy,
             deployment_seen (Deployments_Get env (ImageRegistryName defaults))
                             deploy).
  { destruct (Deployments_Get env (ImageRegistryName defaults))
      as [d | failure] eqn:Hdep; [exists (Some d); reflexivity|].
    destruct (errors.IsNotFound failure) eqn:Hnf;
      [exists None; split; [exact Hnf | reflexivity]|].
    exfalso.
    rewrite (sync_read_failed defaults env cr0 cr1 t1 _ failure
               Hget Hdel Hsw Hdep Hnf) in Hok.
    cbn in Hok. rewrite forallb_app in Hok.
    apply andb_true_iff in Hok as [_ Hok]. cbn in Hok.
    rewrite Hdep, Hnf in Hok. discriminate Hok. }
  destruct Hshape as [deploy Hdep].
  assert (Hres : snd (sync defaults env) = Some e).
  { rewrite (sync_reaches_persistence defaults env _ _ _ _ _ Hget Hdel Hsw Hdep)
      in Hok |- *.
    cbn in Hok |- *. rewrite forallb_app in Hok.
    apply andb_true_iff in Hok as [_ Hok]. cbn in Hok.
    apply andb_true_iff in Hok as [_ Hok].
    apply persistChanges_transient_returned; [exact Htransient | exact Hok]. }
  split; [exact Hres|]. split.
  - exists deploy.
    rewrite (sync_reaches_persistence defaults env _ _ _ _ _ Hget Hdel Hsw Hdep).
    cbn. right. apply in_or_app. right. right. left. reflexivity.
  - rewrite processItem_queue_calls, Hres. reflexivity.
Qed.

(** In [Sample.flakyWorld] the generator fails with a connection error. *)
Lemma transient_apply_failure_is_returned_witness :
  let env := Sample.flakyWorld in
  let cr0 := Sample.config operatorapi.Managed None [Sample.token] in
  managementStateSwitch Sample.defaults env cr0
  = ([EvVerifyResource cr0; EvApply cr0],
     (cr0, Some (ErrorString "connection refused")))
  /\ snd (sync Sample.defaults env) = Some (ErrorString "connection refused")
  /\ filter is_queue_call (processItem Sample.defaults env (ItemString "changes"))
     = [EvQueueAddRateLimited (ItemString "changes");
        EvQueueDone (ItemString "changes")].
Proof.
  intros env cr0.
  destruct (transient_apply_failure_is_returned Sample.defaults env cr0 cr0
              [EvVerifyResource cr0; EvApply cr0]
              (ErrorString "connection refused") "changes"
              eq_refl eq_refl eq_refl eq_refl eq_refl) as (Hres & _ & Hq).
  split; [reflexivity|]. split; [exact Hres | exact Hq].
Defined.

Lemma persistChanges_diff_independent
    (env : Env) (diff : Config -> Config -> string * option error)
    (prevCR cr : Config) (applyError : option error) :
  snd (persistChanges (with_DiffString env diff) prevCR cr applyError)
  = snd (persistChanges env prevCR cr applyError)
  /\ filter (fun ev => negb (is_log ev))
            (fst (persistChanges (with_DiffString env diff) prevCR cr applyError))
     = filter (fun ev => negb (is_log ev))
              (fst (persistChanges env prevCR cr applyError)).
Proof.
  unfold persistChanges, with_DiffString. cbn [strategy_Metadata DiffString
    Configs_Update Configs_UpdateStatus]. unfold_pass.
  repeat (break_match; cbn); try congruence; rewrite ?filter_app; cbn;
    split; congruence.
Qed.

Lemma managementStateSwitch_diff_independent
    (defaults : Defaults) (env : Env)
    (diff : Config -> Config -> string * option error) (cr : Config) :
  managementStateSwitch defaults (with_DiffString env diff) cr
  = managementStateSwitch defaults env cr.
Proof. reflexivity. Qed.

(** [sync] spelled out branch by branch. *)
Lemma sync_unfold (defaults : Defaults) (env : Env) :
  sync defaults env
  = let configName := ImageRegistryResourceName defaults in
    let deploymentName := ImageRegistryName defaults in
    match RegistryConfigs_Get env configName with
    | Failed e =>
        if errors.IsNotFound e
        then ([EvGetConfig configName; EvBootstrap], Bootstrap env)
        else ([EvGetConfig configName],
              Some (Errorf "failed to get %q registry operator resource: %s"
                           [ArgString configName; ArgError e]))
    | Ok cr0 =>
        match DeletionTimestamp (Meta cr0) with
        | Some _ =>
            ([EvGetConfig configName; EvFinalizeResources cr0],
             snd (finalizeResources env cr0))
        | None =>
            let t1 := fst (managementStateSwitch defaults env cr0) in
            let cr1 := fst (snd (managementStateSwitch defaults env cr0)) in
            let applyError := snd (snd (managementStateSwitch defaults env cr0)) in
            let persisting deploy :=
              let p := persistChanges env cr0
                         (syncStatus env cr1 deploy applyError) applyError in
              (EvGetConfig configName :: t1
                 ++ EvGetDeployment deploymentName
                 :: EvSyncStatus cr1 deploy applyError :: fst p,
               snd p) in
            match Deployments_Get env deploymentName with
            | Ok d => persisting (Some d)
            | Failed e =>
                if errors.IsNotFound e then persisting None
                else (EvGetConfig configName :: t1 ++ [EvGetDeployment deploymentName],
                      Some (Errorf "failed to get %q deployment: %s"
                                   [ArgString deploymentName; ArgError e]))
            end
        end
    end.
Proof.
  cbv zeta.
  destruct (RegistryConfigs_Get env (ImageRegistryResourceName defaults))
    as [cr0 | e] eqn:Hget.
  - destruct (DeletionTimestamp (Meta cr0)) as [ts|] eqn:Hdel.
    + exact (sync_deleting defaults env cr0 ts Hget Hdel).
    + destruct (managementStateSwitch defaults env cr0) as [t1 [cr1 ae]] eqn:Hsw.
      cbn [fst snd].
      destruct (Deployments_Get env (ImageRegistryName defaults))
        as [d | e] eqn:Hdep; [|destruct (errors.IsNotFound e) eqn:Hnf].
      * apply (sync_reaches_persistence defaults env _ _ _ _ _ Hget Hdel Hsw).
        rewrite Hdep. reflexivity.
      * apply (sync_reaches_persistence defaults env _ _ _ _ _ Hget Hdel Hsw).
        rewrite Hdep. split; [exact Hnf | reflexivity].
      * exact (sync_read_failed defaults env _ _ _ _ _ Hget Hdel Hsw Hdep Hnf).
  - destruct (errors.IsNotFound e) eqn:Hnf.
    + exact (sync_bootstrap defaults env e Hget Hnf).
    + exact (sync_fetch_failed defaults env e Hget Hnf).
Qed.

(** X13.  The textual diff is for the log only: replacing [object.DiffString]
    by any other function, failing or not, changes neither the result of the
    pass nor any of its calls; only log lines can differ. *)
Theorem diff_is_for_logging_only
    (defaults : Defaults) (env : Env)
    (diff : Config -> Config -> string * option error) :
  snd (sync defaults (with_DiffString env diff)) = snd (sync defaults env)
  /\ filter (fun ev => negb (is_log ev))
            (fst (sync defaults (with_DiffString env diff)))
     = filter (fun ev => negb (is_log ev)) (fst (sync defaults env)).
Proof.
  rewrite !sync_unfold. cbv zeta.
  cbn [RegistryConfigs_Get Deployments_Get Bootstrap finalizeResources
       syncStatus with_DiffString].
  destruct (RegistryConfigs_Get env (ImageRegistryResourceName defaults))
    as [cr0 | e]; [|split; reflexivity].
  destruct (DeletionTimestamp (Meta cr0)); [split; reflexivity|].
  change (managementStateSwitch defaults _ cr0)
    with (managementStateSwitch defaults env cr0).
  destruct (managementStateSwitch defaults env cr0) as [t1 [cr1 ae]].
  cbn [fst snd].
  assert (Hpersist : forall deploy,
    snd (persistChanges (with_DiffString env diff) cr0
           (syncStatus env cr1 deploy ae) ae)
    = snd (persistChanges env cr0 (syncStatus env cr1 deploy ae) ae)
    /\ filter (fun ev => negb (is_log ev))
         (EvGetConfig (ImageRegistryResourceName defaults) :: t1
            ++ EvGetDeployment (ImageRegistryName defaults)
            :: EvSyncStatus cr1 deploy ae
            :: fst (persistChanges (with_DiffString env diff) cr0
                      (syncStatus env cr1 deploy ae) ae))
       = filter (fun ev => negb (is_log ev))
           (EvGetConfig (ImageRegistryResourceName defaults) :: t1
              ++ EvGetDeployment (ImageRegistryName defaults)
              :: EvSyncStatus cr1 deploy ae
              :: fst (persistChanges env cr0 (syncStatus env cr1 deploy ae) ae))).
  { intros deploy.
    destruct (persistChanges_diff_independent env diff cr0
                (syncStatus env cr1 deploy ae) ae) as [Hr Ht].
    split; [exact Hr|].
    cbn. rewrite !filter_app. cbn. rewrite Ht. reflexivity. }
  destruct (Deployments_Get env (ImageRegistryName defaults)) as [d | e];
    [exact (Hpersist (Some d))|].
  destruct (errors.IsNotFound e); [exact (Hpersist None) | split; reflexivity].
Qed.

(** X14.  When the desired-state object cannot be read from the cache, the
    pass does nothing to the cluster beyond, on not-found, the one call of
    [Bootstrap], whose result it returns: no generator call, no deployment
    read, no status computation, no write.  Any other read failure is
    returned formatted with the object's name, and the consumer requeues;
    after a bootstrap the consumer requeues exactly when [Bootstrap]
    failed. *)
Theorem fetch_failure_ends_pass
    (defaults : Defaults) (env : Env) (e : error) (key : string) :
  RegistryConfigs_Get env (ImageRegistryResourceName defaults) = Failed e ->
  let t := fst (sync defaults env) in
  let calls := filter is_queue_call (processItem defaults env (ItemString key)) in
  (t = [EvGetConfig (ImageRegistryResourceName defaults)]
   \/ t = [EvGetConfig (ImageRegistryResourceName defaults); EvBootstrap])
  /\ (errors.IsNotFound e = true ->
      sync defaults env
      = ([EvGetConfig (ImageRegistryResourceName defaults); EvBootstrap],
         Bootstrap env)
      /\ calls = match Bootstrap env with
                 | Some _ => [EvQueueAddRateLimited (ItemString workqueueKey);
                              EvQueueDone (ItemString key)]
                 | None => [EvQueueForget (ItemString key);
                            EvQueueDone (ItemString key)]
                 end)
  /\ (errors.IsNotFound e = false ->
      sync defaults env
      = ([EvGetConfig (ImageRegistryResourceName defaults)],
         Some (Errorf "failed to get %q registry operator resource: %s"
                      [ArgString (ImageRegistryResourceName defaults); ArgError e]))
      /\ calls = [EvQueueAddRateLimited (ItemString workqueueKey);
                  EvQueueDone (ItemString key)]).
Proof.
  intros Hget t calls. subst t calls. rewrite processItem_queue_calls.
  destruct (errors.IsNotFound e) eqn:Hnf.
  - rewrite (sync_bootstrap defaults env e Hget Hnf). cbn.
    split; [right; reflexivity|]. split; [|discriminate].
    intros _. split; [reflexivity|]. destruct (Bootstrap env); reflexivity.
  - rewrite (sync_fetch_failed defaults env e Hget Hnf). cbn.
    split; [left; reflexivity|]. split; [discriminate|].
    intros _. split; reflexivity.
Qed.

Lemma fetch_failure_ends_pass_witness :
  let env := Sample.world (Failed Sample.notFound) (Ok Sample.deployment) None
                          Sample.applyOk (Sample.acceptUpdate 1) in
  RegistryConfigs_Get env "cluster" = Failed Sample.notFound
  /\ sync Sample.defaults env = ([EvGetConfig "cluster"; EvBootstrap], None)
  /\ filter is_queue_call (processItem Sample.defaults env (ItemString "changes"))
     = [EvQueueForget (ItemString "changes"); EvQueueDone (ItemString "changes")].
Proof.
  intros env.
  destruct (fetch_failure_ends_pass Sample.defaults env Sample.notFound "changes"
              eq_refl) as (_ & Hboot & _).
  destruct (Hboot eq_refl) as [Hsync Hcalls].
  split; [reflexivity|]. split; [exact Hsync | exact Hcalls].
Defined.

(** X15.  [createOrUpdateResources] returns nil exactly when validation
    passes and the generator's apply step returns nil, and then hands back
    the object as the generator left it.  It never returns the bare
    storage-not-configured sentinel.  When validation fails the object it
    leaves behind is the fetched one with the finalizer step already
    applied. *)
Theorem createOrUpdateResources_succeeds_iff
    (defaults : Defaults) (env : Env) (cr : Config) :
  let cr1 := appendFinalizer defaults cr in
  let out := createOrUpdateResources defaults env cr in
  (snd (snd out) = None <->
   verifyResource env cr1 = None /\ snd (generator_Apply env cr1) = None)
  /\ (snd (snd out) = None -> fst (snd out) = fst (generator_Apply env cr1))
  /\ snd (snd out) <> Some ErrStorageNotConfigured
  /\ (verifyResource env cr1 <> None -> fst (snd out) = cr1).
Proof.
  intros cr1 out. subst out. unfold createOrUpdateResources. fold cr1.
  unfold_pass.
  destruct (verifyResource env cr1) as [e|].
  - cbn. repeat split; try discriminate; try reflexivity.
    intros [H _]. discriminate H.
  - destruct (generator_Apply env cr1) as [c [[]|]]; cbn;
      repeat split; try discriminate; try reflexivity; try tauto;
      try (intros [_ H]; discriminate H); intros H; contradiction.
Qed.

Lemma createOrUpdateResources_succeeds_iff_witness :
  let cr := Sample.config operatorapi.Managed None [] in
  let cr1 := appendFinalizer Sample.defaults cr in
  verifyResource Sample.invalidWorld cr1 <> None
  /\ fst (snd (createOrUpdateResources Sample.defaults Sample.invalidWorld cr)) = cr1
  /\ Finalizers (Meta cr1) = [Sample.token]
  /\ snd (snd (createOrUpdateResources Sample.defaults Sample.managedWorld cr)) = None.
Proof.
  intros cr cr1.
  assert (Hinvalid : verifyResource Sample.invalidWorld cr1 <> None) by discriminate.
  destruct (createOrUpdateResources_succeeds_iff Sample.defaults
              Sample.invalidWorld cr) as (_ & _ & _ & Hleft).
  destruct (createOrUpdateResources_succeeds_iff Sample.defaults
              Sample.managedWorld cr) as (Hiff & _).
  split; [exact Hinvalid|]. split; [exact (Hleft Hinvalid)|].
  split; [reflexivity|].
  apply Hiff. split; reflexivity.
Defined.

(* ===================================================================== *)
(** ** Start-up *)
(* ===================================================================== *)

Lemma newClients_stops_at_failure
    (w : RunEnv) (built failing : list string) (s : string) (err : error) :
  (forall c, In c built -> NewForConfig w c = None) ->
  NewForConfig w s = Some err ->
  newClients w (built ++ s :: failing)
  = (map RunNewForConfig built ++ [RunNewForConfig s], Some err).
Proof.
  intros Hbuilt Hs. induction built as [|c built IH]; cbn.
  - rewrite Hs. reflexivity.
  - rewrite (Hbuilt c (or_introl eq_refl)).
    rewrite IH; [reflexivity|]. intros c' Hin. apply Hbuilt. right. exact Hin.
Qed.

Lemma newClients_all_built (w : RunEnv) (sets : list string) :
  (forall c, In c sets -> NewForConfig w c = None) ->
  newClients w sets = (map RunNewForConfig sets, None).
Proof.
  intros Hall. induction sets as [|c sets IH]; [reflexivity|].
  cbn. rewrite (Hall c (or_introl eq_refl)).
  rewrite IH; [reflexivity|]. intros c' Hin. apply Hall. right. exact Hin.
Qed.

Lemma waitForCaches_stops_at_failure
    (w : RunEnv) (synced pending : list string) (l : string) :
  (forall i, In i synced -> WaitForCacheSync w i = true) ->
  WaitForCacheSync w l = false ->
  waitForCaches w (synced ++ l :: pending)
  = (map RunWaitForCacheSync synced ++ [RunWaitForCacheSync l], false).
Proof.
  intros Hsynced Hl. induction synced as [|i synced IH]; cbn.
  - rewrite Hl. reflexivity.
  - rewrite (Hsynced i (or_introl eq_refl)).
    rewrite IH; [reflexivity|]. intros i' Hin. apply Hsynced. right. exact Hin.
Qed.

Lemma waitForCaches_all_synced (w : RunEnv) (listers : list string) :
  (forall i, In i listers -> WaitForCacheSync w i = true) ->
  waitForCaches w listers = (map RunWaitForCacheSync listers, true).
Proof.
  intros Hall. induction listers as [|i listers IH]; [reflexivity|].
  cbn. rewrite (Hall i (or_introl eq_refl)).
  rewrite IH; [reflexivity|]. intros i' Hin. apply Hall. right. exact Hin.
Qed.

Lemma newClients_trace (w : RunEnv) (sets : list string) :
  Forall (fun ev => exists s, ev = RunNewForConfig s) (fst (newClients w sets)).
Proof.
  induction sets as [|c sets IH]; cbn; [constructor|].
  destruct (NewForConfig w c).
  - repeat constructor. eexists. reflexivity.
  - destruct (newClients w sets) as [t r]. cbn in *.
    constructor; [eexists; reflexivity | exact IH].
Qed.

Lemma waitForCaches_trace (w : RunEnv) (listers : list string) :
  Forall (fun ev => exists l, ev = RunWaitForCacheSync l)
         (fst (waitForCaches w listers)).
Proof.
  induction listers as [|i listers IH]; cbn; [constructor|].
  destruct (WaitForCacheSync w i).
  - destruct (waitForCaches w listers) as [t ok]. cbn in *.
    constructor; [eexists; reflexivity | exact IH].
  - repeat constructor. eexists. reflexivity.
Qed.

Lemma filter_nil_of_Forall {A} (P : A -> Prop) (q : A -> bool) (l : list A) :
  (forall x, P x -> q x = false) -> Forall P l -> filter q l = [].
Proof.
  intros Hpq Hall. induction Hall as [|x l Hx _ IH]; [reflexivity|].
  cbn. rewrite (Hpq x Hx). exact IH.
Qed.

(** X16.  [Run] builds the client sets in a fixed order and gives up at the
    first one that cannot be built: it returns that error, builds no later
    client set, registers no handler, starts no informer factory and no
    goroutine, and shuts the work queue down on its way out. *)
Theorem Run_stops_at_first_client_failure
    (w : RunEnv) (built failing : list string) (s : string) (err : error) :
  clientSets = built ++ s :: failing ->
  (forall c, In c built -> NewForConfig w c = None) ->
  NewForConfig w s = Some err ->
  Run w = (map RunNewForConfig built ++ [RunNewForConfig s; RunQueueShutDown],
           Some err).
Proof.
  intros Hsets Hbuilt Hs. unfold Run. rewrite Hsets.
  rewrite (newClients_stops_at_failure w built failing s err Hbuilt Hs).
  cbn. rewrite <- app_assoc. reflexivity.
Qed.

Lemma Run_stops_at_first_client_failure_witness :
  Run SampleStart.badKubeconfig
  = ([RunNewForConfig "coreset"; RunNewForConfig "appsset";
      RunNewForConfig "rbacset"; RunNewForConfig "kubeset";
      RunNewForConfig "routesetv1"; RunQueueShutDown],
     Some (ErrorString "invalid configuration")).
Proof.
  apply (Run_stops_at_first_client_failure SampleStart.badKubeconfig
           ["coreset"; "appsset"; "rbacset"; "kubeset"]
           ["configsetv1"; "regopset"; "batchset"; "routeset"; "configset"]
           "routesetv1" (ErrorString "invalid configuration")).
  - reflexivity.
  - intros c Hin. cbn in Hin.
    decompose [or] Hin; try contradiction; subst; reflexivity.
  - reflexivity.
Defined.

(** X17.  When an informer cache does not sync, [Run] returns the error
    ["failed to wait for caches to sync"] without waiting for the remaining
    informers and without starting the event processor, and shuts the queue
    down; the four sibling controllers were started before the wait and are
    the only goroutines launched. *)
Theorem Run_stops_at_first_unsynced_cache
    (w : RunEnv) (synced pending : list string) (l : string) :
  (forall c, In c clientSets -> NewForConfig w c = None) ->
  watchedListers = synced ++ l :: pending ->
  (forall i, In i synced -> WaitForCacheSync w i = true) ->
  WaitForCacheSync w l = false ->
  snd (Run w) = Some (Errorf "failed to wait for caches to sync" [])
  /\ filter is_go (fst (Run w)) = map RunGo siblingRoutines
  /\ (exists setup,
        fst (Run w)
        = setup ++ map RunWaitForCacheSync synced
            ++ [RunWaitForCacheSync l; RunQueueShutDown]).
Proof.
  intros Hclients Hlisters Hsynced Hl. unfold Run.
  rewrite (newClients_all_built w clientSets Hclients).
  assert (Hwait : waitForCaches w watchedListers
                  = (map RunWaitForCacheSync synced ++ [RunWaitForCacheSync l],
                     false)).
  { rewrite Hlisters.
    exact (waitForCaches_stops_at_failure w synced pending l Hsynced Hl). }
  rewrite Hwait. cbn [fst snd].
  split; [reflexivity|]. split.
  - rewrite !filter_app.
    assert (Hmap : forall f (names : list string),
               (forall n, is_go (f n) = false) -> filter is_go (map f names) = []).
    { intros f names Hf. induction names as [|n names IH]; [reflexivity|].
      cbn. rewrite Hf. exact IH. }
    rewrite (Hmap RunNewForConfig), (Hmap RunAddEventHandler),
      (Hmap RunNewSibling), (Hmap RunStartFactory), (Hmap RunWaitForCacheSync);
      try reflexivity.
  - exists (map RunNewForConfig clientSets
              ++ map RunAddEventHandler watchedListers
              ++ map RunNewSibling siblingControllers
              ++ map RunStartFactory informerFactories
              ++ map RunGo siblingRoutines
              ++ [RunLog "waiting for informer caches to sync"]).
    rewrite <- !app_assoc. reflexivity.
Qed.

Lemma Run_stops_at_first_unsynced_cache_witness :
  snd (Run SampleStart.stoppedEarly)
  = Some (Errorf "failed to wait for caches to sync" [])
  /\ filter is_go (fst (Run SampleStart.stoppedEarly))
     = [RunGo "clusterOperatorStatusController"; RunGo "nodeCADaemonController";
        RunGo "imageRegistryCertificatesController";
        RunGo "imageConfigStatusController"].
Proof.
  destruct (Run_stops_at_first_unsynced_cache SampleStart.stoppedEarly
              ["Deployments"; "DaemonSets"; "Services"]
              (skipn 4 watchedListers) "Secrets") as (Herr & Hgo & _).
  - intros c _. reflexivity.
  - reflexivity.
  - intros i Hin. cbn in Hin.
    decompose [or] Hin; try contradiction; subst; reflexivity.
  - reflexivity.
  - split; [exact Herr | exact Hgo].
Defined.

(** X18.  Whatever happens during start-up, [Run] shuts the work queue down
    exactly once, as its last step; and the event processor is started in
    exactly the runs that end with a nil error, that is, once every client
    set is built and every informer cache has synced. *)
Theorem Run_always_shuts_down (w : RunEnv) :
  (exists t, fst (Run w) = t ++ [RunQueueShutDown] /\ filter is_shutdown t = [])
  /\ (In (RunGo "eventProcessor") (fst (Run w)) <-> snd (Run w) = None).
Proof.
  unfold Run.
  pose proof (newClients_trace w clientSets) as Hclients.
  pose proof (waitForCaches_trace w watchedListers) as Hwaits.
  destruct (newClients w clientSets) as [t1 [err|]]; cbn [fst snd] in *.
  - split.
    + exists t1. split; [reflexivity|].
      apply (filter_nil_of_Forall _ is_shutdown t1) in Hclients; [exact Hclients|].
      intros ev [s ->]. reflexivity.
    + split; [|discriminate]. intros Hin. exfalso.
      apply in_app_or in Hin as [Hin | [Hin | []]]; [|discriminate Hin].
      rewrite Forall_forall in Hclients.
      destruct (Hclients _ Hin) as [s Hs]. discriminate Hs.
  - assert (Ht1 : filter is_shutdown t1 = []).
    { apply (filter_nil_of_Forall _ is_shutdown t1) in Hclients; [exact Hclients|].
      intros ev [s ->]. reflexivity. }
    destruct (waitForCaches w watchedListers) as [t3 ok]; cbn [fst snd] in *.
    assert (Ht3 : filter is_shutdown t3 = []).
    { apply (filter_nil_of_Forall _ is_shutdown t3) in Hwaits; [exact Hwaits|].
      intros ev [l ->]. reflexivity. }
    assert (Hnot1 : ~ In (RunGo "eventProcessor") t1).
    { intros Hin. rewrite Forall_forall in Hclients.
      destruct (Hclients _ Hin) as [s Hs]. discriminate Hs. }
    assert (Hnot3 : ~ In (RunGo "eventProcessor") t3).
    { intros Hin. rewrite Forall_forall in Hwaits.
      destruct (Hwaits _ Hin) as [l Hl]. discriminate Hl. }
    destruct ok; cbn [fst snd].
    + split.
      * eexists. split; [reflexivity|].
        rewrite !filter_app, Ht1, Ht3. reflexivity.
      * split; [reflexivity|]. intros _.
        apply in_or_app. left. apply in_or_app. right.
        apply in_or_app. right. left. reflexivity.
    + split.
      * eexists. split; [reflexivity|].
        rewrite !filter_app, Ht1, Ht3. reflexivity.
      * split; [|discriminate]. intros Hin. exfalso.
        rewrite !in_app_iff in Hin. cbn in Hin.
        intuition (try discriminate).
Qed.

Lemma Run_always_shuts_down_witness :
  In (RunGo "eventProcessor") (fst (Run SampleStart.healthy))
  /\ ~ In (RunGo "eventProcessor") (fst (Run SampleStart.stoppedEarly)).
Proof.
  split.
  - apply (proj2 (Run_always_shuts_down SampleStart.healthy)). reflexivity.
  - intros Hin.
    apply (proj2 (Run_always_shuts_down SampleStart.stoppedEarly)) in Hin.
    discriminate Hin.
Defined.

(** X19.  In a start-up that succeeds, the event processor is started only
    after a handler has been registered on every watched informer and every
    informer cache has been waited for; after it, [Run] only waits for the
    stop signal and shuts the queue down. *)
Theorem Run_starts_consumer_after_sync (w : RunEnv) :
  (forall c, In c clientSets -> NewForConfig w c = None) ->
  (forall l, In l watchedListers -> WaitForCacheSync w l = true) ->
  snd (Run w) = None
  /\ exists before,
       fst (Run w)
       = before ++ [RunGo "eventProcessor"; RunLog "started events processor";
                    RunAwaitStop; RunLog "shutting down events processor";
                    RunQueueShutDown]
       /\ (forall l, In l watchedListers ->
             In (RunAddEventHandler l) before
             /\ In (RunWaitForCacheSync l) before)
       /\ filter is_handler_registration before
          = map RunAddEventHandler watchedListers.
Proof.
  intros Hclients Hsynced. unfold Run.
  rewrite (newClients_all_built w clientSets Hclients).
  rewrite (waitForCaches_all_synced w watchedListers Hsynced).
  cbn [fst snd]. split; [reflexivity|].
  exists ((map RunNewForConfig clientSets
             ++ map RunAddEventHandler watchedListers
             ++ map RunNewSibling siblingControllers
             ++ map RunStartFactory informerFactories
             ++ map RunGo siblingRoutines
             ++ [RunLog "waiting for informer caches to sync"])
            ++ map RunWaitForCacheSync watchedListers).
  split; [|split].
  - rewrite <- !app_assoc. reflexivity.
  - intros l Hl. rewrite !in_app_iff. split.
    + left. right. left. apply in_map. exact Hl.
    + right. apply in_map. exact Hl.
  - reflexivity.
Qed.

Lemma Run_starts_consumer_after_sync_witness :
  snd (Run SampleStart.healthy) = None
  /\ List.length (filter is_handler_registration (fst (Run SampleStart.healthy)))
     = 19%nat.
Proof.
  destruct (Run_starts_consumer_after_sync SampleStart.healthy
              (fun _ _ => eq_refl) (fun _ _ => eq_refl)) as [Hnil _].
  split; [exact Hnil | reflexivity].
Defined.

(* ===================================================================== *)
(** ** Backoff across passes *)
(* ===================================================================== *)

Lemma queue_after_queue_calls (q : Workqueue) (t : list Event) :
  queue_after q t = queue_after q (filter is_queue_call t).
Proof.
  unfold queue_after. revert q.
  induction t as [|ev t IH]; intros q; [reflexivity|].
  destruct ev; cbn; apply IH.
Qed.

Lemma queue_after_app (q : Workqueue) (t t' : list Event) :
  queue_after q (t ++ t') = queue_after (queue_after q t) t'.
Proof. unfold queue_after. apply fold_left_app. Qed.

Lemma numRequeues_after_failed_pass
    (defaults : Defaults) (env : Env) (s : string) (q : Workqueue) :
  snd (sync defaults env) <> None ->
  numRequeues (queue_after q (processItem defaults env (ItemString s)))
              (ItemString workqueueKey)
  = S (numRequeues q (ItemString workqueueKey)).
Proof.
  intros Hfail.
  rewrite queue_after_queue_calls, processItem_queue_calls.
  destruct (snd (sync defaults env)); [|contradiction].
  cbn -[Item_dec].
  destruct (Item_dec (ItemString workqueueKey) (ItemString workqueueKey));
    congruence.
Qed.

(** X20.  [NewController] seeds the queue with one rate-limited add of the
    sentinel key and returns no error.  From then on every failed pass adds
    one more failure to the rate limiter's count for the sentinel key, so
    consecutive failures back off further and further, and the first pass
    that succeeds on the sentinel key brings the count back to zero. *)
Theorem backoff_grows_until_success
    (defaults : Defaults) (gets : list (Env * Item * bool)) (q : Workqueue) :
  (forall g, In g gets ->
     snd g = false
     /\ (exists s, snd (fst g) = ItemString s)
     /\ snd (sync defaults (fst (fst g))) <> None) ->
  let sentinel := ItemString workqueueKey in
  let seeded := queue_after q (fst NewController) in
  snd NewController = None
  /\ In sentinel (delayed seeded)
  /\ numRequeues seeded sentinel = S (numRequeues q sentinel)
  /\ numRequeues (queue_after seeded (eventProcessor defaults gets)) sentinel
     = (S (numRequeues q sentinel) + List.length gets)%nat
  /\ forall env,
       snd (sync defaults env) = None ->
       numRequeues
         (queue_after seeded
            (eventProcessor defaults (gets ++ [(env, sentinel, false)])))
         sentinel = 0%nat.
Proof.
  intros Hfail sentinel seeded.
  assert (Hseed : numRequeues seeded sentinel = S (numRequeues q sentinel)).
  { subst seeded sentinel. cbn -[Item_dec].
    destruct (Item_dec (ItemString workqueueKey) (ItemString workqueueKey));
      congruence. }
  assert (Hgrow : forall q0,
             numRequeues (queue_after q0 (eventProcessor defaults gets)) sentinel
             = (numRequeues q0 sentinel + List.length gets)%nat).
  { induction gets as [|[[env obj] shutdown] rest IH]; intros q0.
    - cbn. lia.
    - destruct (Hfail _ (or_introl eq_refl)) as (Hrun & [s Hs] & Hres).
      cbn in Hrun, Hs, Hres. subst shutdown obj.
      cbn [eventProcessor].
      change (EvLog (SevV 1) "get event from workqueue" None
                :: processItem defaults env (ItemString s)
                ++ eventProcessor defaults rest)
        with ([EvLog (SevV 1) "get event from workqueue" None]
                ++ processItem defaults env (ItemString s)
                ++ eventProcessor defaults rest).
      rewrite !queue_after_app.
      rewrite IH; [|intros g Hg; apply Hfail; right; exact Hg].
      change (queue_after q0 [EvLog (SevV 1) "get event from workqueue" None])
        with q0.
      unfold sentinel.
      rewrite (numRequeues_after_failed_pass defaults env s q0 Hres).
      cbn [List.length]. lia. }
  assert (Hprefix : forall q0 env,
             queue_after q0
               (eventProcessor defaults (gets ++ [(env, sentinel, false)]))
             = queue_after (queue_after q0 (eventProcessor defaults gets))
                 (EvLog (SevV 1) "get event from workqueue" None
                    :: processItem defaults env sentinel)).
  { clear Hgrow. intros q0 env. revert q0.
    induction gets as [|[[env' obj] shutdown] rest IH]; intros q0.
    - cbn [app eventProcessor]. rewrite app_nil_r. reflexivity.
    - destruct (Hfail _ (or_introl eq_refl)) as (Hrun & _ & _).
      cbn in Hrun. subst shutdown.
      cbn [app eventProcessor].
      change (?a :: ?l ++ ?r) with ([a] ++ l ++ r).
      rewrite !queue_after_app.
      apply IH. intros g Hg. apply Hfail. right. exact Hg. }
  split; [reflexivity|]. split; [|split; [exact Hseed|split]].
  - subst seeded sentinel. cbn -[Item_dec in_dec].
    destruct (in_dec Item_dec (ItemString workqueueKey) (delayed q)) as [Hin | Hout];
      [exact Hin | apply in_or_app; right; left; reflexivity].
  - rewrite Hgrow, Hseed. reflexivity.
  - intros env Hok. rewrite Hprefix.
    change (EvLog (SevV 1) "get event from workqueue" None
              :: processItem defaults env sentinel)
      with ([EvLog (SevV 1) "get event from workqueue" None]
              ++ processItem defaults env sentinel).
    rewrite queue_after_app.
    rewrite (queue_after_queue_calls _ (processItem defaults env sentinel)).
    rewrite processItem_queue_calls, Hok.
    cbn -[Item_dec].
    destruct (Item_dec sentinel sentinel); congruence.
Qed.

(** Two passes that meet a version conflict, then one on the settled
    object. *)
Lemma backoff_grows_until_success_witness :
  let failing := [(Sample.conflictWorld, ItemString "changes", false);
                  (Sample.conflictWorld, ItemString "changes", false)] in
  let seeded := queue_after Sample.backedOffQueue (fst NewController) in
  numRequeues seeded (ItemString "changes") = 3%nat
  /\ numRequeues (queue_after seeded (eventProcessor Sample.defaults failing))
                 (ItemString "changes") = 5%nat
  /\ numRequeues
       (queue_after seeded
          (eventProcessor Sample.defaults
             (failing ++ [(Sample.settledWorld, ItemString "changes", false)])))
       (ItemString "changes") = 0%nat.
Proof.
  intros failing seeded.
  assert (Hfail : forall g, In g failing ->
            snd g = false
            /\ (exists s, snd (fst g) = ItemString s)
            /\ snd (sync Sample.defaults (fst (fst g))) <> None).
  { intros g Hin. cbn in Hin. decompose [or] Hin; try contradiction; subst g;
      (split; [reflexivity|]); (split; [exists "changes"; reflexivity|]);
      discriminate. }
  destruct (backoff_grows_until_success Sample.defaults failing
              Sample.backedOffQueue Hfail) as (_ & _ & Hseed & Hgrow & Hreset).
  split; [exact Hseed|]. split; [exact Hgrow|].
  exact (Hreset Sample.settledWorld eq_refl).
Defined.

(* ===================================================================== *)
(** ** Hands-off management states *)
(* ===================================================================== *)



